(** * vscan-graphql-introspection-checker: a shallow embedding of [main.py]

    The script sends one fixed GraphQL introspection query to a URL and
    classifies the answer.  Everything it does goes through three libraries
    ([argparse], [requests], [logging]); the embedding keeps the script's own
    control flow and takes what the libraries answer as data:

    - a Python [str] is a Rocq [string], one character per code point below
      256 (HTTP header values are Latin-1);
    - the dictionary built by [parse_headers] is a [gmap string string];
    - a [requests.Response] is a record of what the script reads from it;
    - the network is a function from the request sent to what comes back;
    - exceptions, the log, the requests sent and standard output are
      threaded through a small state-and-error monad. *)

From Stdlib Require Import ZArith Ascii String List Bool Lia.
From stdpp Require Import base option list strings gmap.

#[local] Set Warnings "-register-all,-clear-no-such-hyp".
Local Open Scope Z_scope.

(** ** Python strings *)

Module PyStr.

Definition code (c : ascii) : N := N_of_ascii c.

(** [str.isspace] on the code points below 256: TAB..CR, FS..US, space,
    NEL and the no-break space.  [str.strip()] removes exactly these. *)
Definition is_space (c : ascii) : bool :=
  let n := code c in
  ((9 <=? n) && (n <=? 13) || (28 <=? n) && (n <=? 32)
   || (n =? 133) || (n =? 160))%N.

Fixpoint lstrip (s : string) : string :=
  match s with
  | EmptyString => EmptyString
  | String c s' => if is_space c then lstrip s' else s
  end.

Fixpoint rstrip (s : string) : string :=
  match s with
  | EmptyString => EmptyString
  | String c s' =>
      match rstrip s' with
      | EmptyString => if is_space c then EmptyString else String c EmptyString
      | r => String c r
      end
  end.

Definition strip (s : string) : string := rstrip (lstrip s).

(** [str.lower] on the code points below 256: A..Z and the Latin-1
    capitals (all of 0xC0..0xDE but the multiplication sign) move up
    by 32. *)
Definition lower_char (c : ascii) : ascii :=
  let n := code c in
  if ((65 <=? n) && (n <=? 90)
      || (192 <=? n) && (n <=? 222) && negb (n =? 215))%N
  then ascii_of_N (n + 32) else c.

Fixpoint lower (s : string) : string :=
  match s with
  | EmptyString => EmptyString
  | String c s' => String (lower_char c) (lower s')
  end.

(** [s.startswith(p)] *)
Fixpoint startswith (p s : string) : bool :=
  match p, s with
  | EmptyString, _ => true
  | String a p', String b s' => Ascii.eqb a b && startswith p' s'
  | String _ _, EmptyString => false
  end.

(** [sub in s] for two strings: [sub] occurs somewhere in [s]. *)
Fixpoint contains (sub s : string) : bool :=
  startswith sub s ||
  match s with
  | EmptyString => false
  | String _ s' => contains sub s'
  end.

(** [s.split(sep, 1)] for a one-character separator: the text before the
    first [sep] and the text after it, or [s] alone when there is none. *)
Fixpoint split1 (sep : ascii) (s : string) : list string :=
  match s with
  | EmptyString => [EmptyString]
  | String c s' =>
      if Ascii.eqb c sep then [EmptyString; s']
      else match split1 sep s' with
           | h :: t => String c h :: t
           | [] => [String c EmptyString]
           end
  end.

Fixpoint has_char (sep : ascii) (s : string) : bool :=
  match s with
  | EmptyString => false
  | String c s' => Ascii.eqb c sep || has_char sep s'
  end.

End PyStr.

(** ** Exceptions *)

(** The exception classes that can reach a handler of the script. *)
Inductive PyClass : Type :=
  | ConnectionError          (* requests: refused, reset, DNS failure *)
  | Timeout                  (* requests: connect or read timeout *)
  | HTTPError                (* requests: raised by raise_for_status *)
  | OtherRequestException    (* requests: MissingSchema, InvalidURL, ... *)
  | RequestsJSONDecodeError  (* requests.exceptions.JSONDecodeError *)
  | JSONDecodeError          (* json.JSONDecodeError *)
  | ValueError
  | TypeError
  | KeyError
  | AttributeError
  | UnboundLocalError
  | OtherException
  | KeyboardInterrupt        (* BaseException only *)
  | SystemExit.              (* BaseException only *)

Record Exn : Type := mkExn { exn_class : PyClass; exn_str : string }.

(** [isinstance(e, requests.exceptions.RequestException)].  Since
    requests 2.27 the error raised by [Response.json()] derives from both
    [RequestException] (through [InvalidJSONError]) and
    [json.JSONDecodeError]. *)
Definition is_RequestException (e : Exn) : bool :=
  match exn_class e with
  | ConnectionError | Timeout | HTTPError | OtherRequestException
  | RequestsJSONDecodeError => true
  | _ => false
  end.

(** [isinstance(e, json.JSONDecodeError)] *)
Definition is_JSONDecodeError (e : Exn) : bool :=
  match exn_class e with
  | RequestsJSONDecodeError | JSONDecodeError => true
  | _ => false
  end.

(** [isinstance(e, ValueError)]: the JSON errors are [ValueError]s. *)
Definition is_ValueError (e : Exn) : bool :=
  match exn_class e with
  | ValueError | RequestsJSONDecodeError | JSONDecodeError => true
  | _ => false
  end.

(** [isinstance(e, Exception)] *)
Definition is_Exception (e : Exn) : bool :=
  match exn_class e with
  | KeyboardInterrupt | SystemExit => false
  | _ => true
  end.

Inductive Result (A : Type) : Type :=
  | Ok (a : A)
  | Raise (e : Exn).
Arguments Ok {A} a.
Arguments Raise {A} e.

(** ** JSON values and the two Python operators applied to them *)

(** What [json.loads] builds: [None], [bool], a number, [str], [list],
    [dict].  A [dict] is its list of members, looked up by key. *)
Inductive Json : Type :=
  | JNull
  | JBool (b : bool)
  | JNum (literal : string)
  | JStr (s : string)
  | JArr (items : list Json)
  | JObj (members : list (string * Json)).

Fixpoint member (key : string) (members : list (string * Json))
    : option Json :=
  match members with
  | [] => None
  | (k, v) :: rest => if String.eqb k key then Some v else member key rest
  end.

Definition str_equals (needle : string) (v : Json) : bool :=
  match v with
  | JStr s => String.eqb s needle
  | _ => false
  end.

(** [needle in v] for a string [needle]: key membership on a [dict],
    element membership on a [list], substring on a [str], and a
    [TypeError] on anything else. *)
Definition py_in (needle : string) (v : Json) : Result bool :=
  match v with
  | JObj members =>
      Ok (match member needle members with Some _ => true | None => false end)
  | JArr items => Ok (existsb (str_equals needle) items)
  | JStr s => Ok (PyStr.contains needle s)
  | JNull | JBool _ | JNum _ =>
      Raise (mkExn TypeError "argument is not iterable")
  end.

(** [v[key]] for a string [key]. *)
Definition py_getitem (v : Json) (key : string) : Result Json :=
  match v with
  | JObj members =>
      match member key members with
      | Some x => Ok x
      | None => Raise (mkExn KeyError key)
      end
  | JArr _ => Raise (mkExn TypeError "list indices must be integers or slices, not str")
  | JStr _ => Raise (mkExn TypeError "string indices must be integers, not 'str'")
  | JNull | JBool _ | JNum _ =>
      Raise (mkExn TypeError "object is not subscriptable")
  end.

(** ** Requests and responses *)

Inductive Method : Type := POST | GET.

(** One call of [requests.post] or [requests.get], with the keyword
    arguments the script passes. *)
Record Request : Type := mkRequest {
  req_method : Method;
  req_url : string;
  req_json : option (list (string * string));
  req_params : option (list (string * string));
  req_headers : gmap string string;
  req_timeout : Z
}.

(** What the script reads from a [requests.Response]: the status code, the
    headers, the decoded body and what calling [.json()] does. *)
Record Response : Type := mkResponse {
  status_code : Z;
  resp_headers : list (string * string);
  text : string;
  json : Result Json
}.

(** The network: what each call of [requests] comes back with. *)
Definition World : Type := Request -> Result Response.

(** [response.headers.get(key, default)]: the headers of a response are a
    case-insensitive dictionary. *)
Fixpoint headers_get (key default : string) (hs : list (string * string))
    : string :=
  match hs with
  | [] => default
  | (k, v) :: rest =>
      if String.eqb (PyStr.lower k) (PyStr.lower key) then v
      else headers_get key default rest
  end.

(** ** The effects of the script *)

Inductive Level : Type := INFO | WARNING | ERROR.

Record LogRecord : Type := mkLog { level : Level; message : string }.

(** What a run has done so far: the log records, the requests sent and the
    lines printed, each oldest first; and the local variable [response] of
    [check_introspection], unbound until its first assignment. *)
Record Frame : Type := mkFrame {
  logged : list LogRecord;
  sent : list Request;
  printed : list string;
  var_response : option Response
}.

Definition start : Frame := mkFrame [] [] [] None.

Definition Py (A : Type) : Type := Frame -> Result A * Frame.

#[global] Instance py_ret : MRet Py := fun A a st => (Ok a, st).

#[global] Instance py_bind : MBind Py := fun A B f m st =>
  match m st with
  | (Ok a, st') => f a st'
  | (Raise e, st') => (Raise e, st')
  end.

Definition raise {A : Type} (e : Exn) : Py A := fun st => (Raise e, st).

Definition lift {A : Type} (r : Result A) : Py A := fun st => (r, st).

(** [try: body  except <classes matched by handles>: handler] *)
Definition try_except {A : Type} (body : Py A) (handles : Exn -> bool)
    (handler : Exn -> Py A) : Py A := fun st =>
  match body st with
  | (Raise e, st') => if handles e then handler e st' else (Raise e, st')
  | ok => ok
  end.

Definition log (l : Level) (msg : string) : Py unit := fun st =>
  (Ok tt, mkFrame (logged st ++ [mkLog l msg]) (sent st) (printed st)
            (var_response st)).

Definition print (line : string) : Py unit := fun st =>
  (Ok tt, mkFrame (logged st) (sent st) (printed st ++ [line])
            (var_response st)).

Definition request (w : World) (req : Request) : Py Response := fun st =>
  (w req, mkFrame (logged st) (sent st ++ [req]) (printed st)
            (var_response st)).

(** [response = r] *)
Definition assign_response (r : Response) : Py unit := fun st =>
  (Ok tt, mkFrame (logged st) (sent st) (printed st) (Some r)).

(** Reading the name [response]. *)
Definition read_response : Py Response := fun st =>
  match var_response st with
  | Some r => (Ok r, st)
  | None =>
      (Raise (mkExn UnboundLocalError
         "cannot access local variable 'response' where it is not associated with a value"),
       st)
  end.

(** Entering a function: its local names are unbound. *)
Definition call {A : Type} (body : Py A) : Py A := fun st =>
  body (mkFrame (logged st) (sent st) (printed st) None).

(** ** [parse_headers] *)

(** [key, value = parts]: unpacking into two names needs exactly two
    values and raises [ValueError] otherwise. *)
Definition unpack2 (parts : list string) : Result (string * string) :=
  match parts with
  | [a; b] => Ok (a, b)
  | [] | [_] =>
      Raise (mkExn ValueError "not enough values to unpack (expected 2, got 1)")
  | _ => Raise (mkExn ValueError "too many values to unpack (expected 2)")
  end.

Definition invalid_header_message (header_str : string) : string :=
  "Invalid header format: " +:+ header_str +:+ ".  Expected 'Key: Value'".

(** One turn of the [for] loop of lines 174-179. *)
Definition parse_header (headers : gmap string string) (header_str : string)
    : Py (gmap string string) :=
  try_except
    ('(key, value) ← lift (unpack2 (PyStr.split1 ":" header_str));
     mret (<[PyStr.strip key := PyStr.strip value]> headers))
    is_ValueError
    (fun _ => log ERROR (invalid_header_message header_str);; mret headers).

Fixpoint parse_headers_from (headers : gmap string string)
    (header_list : list string) : Py (gmap string string) :=
  match header_list with
  | [] => mret headers
  | header_str :: rest =>
      headers' ← parse_header headers header_str;
      parse_headers_from headers' rest
  end.

Definition parse_headers (header_list : list string)
    : Py (gmap string string) :=
  parse_headers_from ∅ header_list.

(** ** [check_introspection] *)

Definition INTROSPECTION_QUERY : string :=
"
query IntrospectionQuery {
  __schema {
    queryType { name }
    mutationType { name }
    subscriptionType { name }
    types {
      ...FullType
    }
    directives {
      name
      description
      locations
      args {
        ...InputValue
      }
    }
  }
}

fragment FullType on __Type {
  kind
  name
  description
  fields(includeDeprecated: true) {
    name
    description
    args {
      ...InputValue
    }
    type {
      ...TypeRef
    }
    isDeprecated
    deprecationReason
  }
  inputFields {
    ...InputValue
  }
  interfaces {
    ...TypeRef
  }
  enumValues(includeDeprecated: true) {
    name
    description
    isDeprecated
    deprecationReason
  }
  possibleTypes {
    ...TypeRef
  }
}

fragment InputValue on __InputValue {
  name
  description
  type { ...TypeRef }
  defaultValue
}

fragment TypeRef on __Type {
  kind
  name
  ofType {
    kind
    name
    ofType {
      kind
      name
      ofType {
        kind
        name
        ofType {
          kind
          name
          ofType {
            kind
            name
          }
        }
      }
    }
  }
}
".

Definition payload : list (string * string) :=
  [("query", INTROSPECTION_QUERY)].

(** [requests.post(url, json=payload, headers=headers, timeout=10)] *)
Definition post_request (url : string) (headers : gmap string string)
    : Request :=
  mkRequest POST url (Some payload) None headers 10.

Definition requests_post (w : World) (url : string)
    (headers : gmap string string) : Py Response :=
  request w (post_request url headers).

(** [requests.get(url, params=payload, headers=headers, timeout=10)] *)
Definition get_request (url : string) (headers : gmap string string)
    : Request :=
  mkRequest GET url None (Some payload) headers 10.

Definition requests_get (w : World) (url : string)
    (headers : gmap string string) : Py Response :=
  request w (get_request url headers).

Definition content_type (response : Response) : string :=
  PyStr.lower (headers_get "Content-Type" "" (resp_headers response)).

Definition is_html (response : Response) : bool :=
  PyStr.contains "text/html" (content_type response).

(** [response.raise_for_status()]: requests raises [HTTPError] for a 4xx
    or a 5xx status code ([400 <= status_code < 600]) and returns
    otherwise. *)
Definition raise_for_status (response : Response) : Py unit :=
  if (400 <=? status_code response) && (status_code response <? 600)
  then raise (mkExn HTTPError "Client Error or Server Error")
  else mret tt.

(** ['data' in data and '__schema' in data['data']] *)
Definition has_schema (data : Json) : Result bool :=
  match py_in "data" data with
  | Raise e => Raise e
  | Ok false => Ok false
  | Ok true =>
      match py_getitem data "data" with
      | Raise e => Raise e
      | Ok inner => py_in "__schema" inner
      end
  end.

Definition unexpected_content_type_message (ct : string) : string :=
  "Unexpected content type: " +:+ ct +:+
  ".  Expected application/json. Please ensure target endpoint is a graphql endpoint".

(** Lines 144-158: the part of the [try] block after the requests. *)
Definition classify : Py bool :=
  response ← read_response;
  raise_for_status response;;
  let content_type := content_type response in
  if PyStr.contains "application/json" content_type then
    data ← lift (json response);
    enabled ← lift (has_schema data);
    if enabled : bool then
      log INFO "GraphQL introspection is enabled.";;
      mret true
    else
      log INFO "GraphQL introspection is not enabled or schema is restricted.";;
      mret false
  else
    log WARNING (unexpected_content_type_message content_type);;
    mret false.

(** Lines 131-158: the [try] block. *)
Definition try_block (w : World) (url : string)
    (headers : gmap string string) (use_post : bool) : Py bool :=
  (if use_post then
     response ← requests_post w url headers;
     assign_response response
   else
     response ← requests_post w url headers;
     assign_response response;;
     if is_html response then
       log INFO "Received HTML response, attempting GET request with parameters.";;
       response ← requests_get w url headers;
       assign_response response
     else mret tt);;
  classify.

(** Lines 160-168: the three [except] clauses, tried in order. *)
Definition handlers (e : Exn) : Py bool :=
  if is_RequestException e then
    log ERROR ("Request failed: " +:+ exn_str e);;
    mret false
  else if is_JSONDecodeError e then
    response ← read_response;
    log ERROR ("Failed to decode JSON response: " +:+ exn_str e +:+
               ".  Raw Response: " +:+ text response);;
    mret false
  else
    log ERROR ("An unexpected error occurred: " +:+ exn_str e);;
    mret false.

Definition check_introspection (w : World) (url : string)
    (headers : gmap string string) (use_post : bool) : Py bool :=
  call (try_except (try_block w url headers use_post) is_Exception handlers).

(** ** [main] *)

(** The [argparse.Namespace] built by line 108: the attributes [url],
    [header] and [post], and no other. *)
Record Namespace : Type := mkNamespace {
  ns_url : string;
  ns_header : list string;
  ns_post : bool
}.

Inductive PyVal : Type :=
  | VStr (s : string)
  | VList (l : list string)
  | VBool (b : bool).

(** [ns.name] *)
Definition getattr (ns : Namespace) (name : string) : Result PyVal :=
  if String.eqb name "url" then Ok (VStr (ns_url ns))
  else if String.eqb name "header" then Ok (VList (ns_header ns))
  else if String.eqb name "post" then Ok (VBool (ns_post ns))
  else Raise (mkExn AttributeError
         ("'Namespace' object has no attribute '" +:+ name +:+ "'")).

(** [f()]: none of the values a [Namespace] holds can be called. *)
Definition call_value (f : PyVal) : Result Namespace :=
  Raise (mkExn TypeError "object is not callable").

(** [setup_argparse] returns [parser.parse_args()], the parsed command
    line.  [cli] is what argparse makes of [sys.argv]: a [Namespace], or
    [SystemExit] after a usage error or [-h].  What argparse itself writes
    before such a [SystemExit] (the help text, the usage message) is not
    part of the model: only the runs on a parsed command line, [Ok args],
    are stated anything about. *)
Definition setup_argparse (cli : Result Namespace) : Py Namespace :=
  lift cli.

(** [url.startswith(('http://', 'https://'))] *)
Definition has_scheme (url : string) : bool :=
  PyStr.startswith "http://" url || PyStr.startswith "https://" url.

(** Lines 190-209: what [main] does with the parsed arguments. *)
Definition run (w : World) (args : Namespace) : Py unit :=
  let url := ns_url args in
  headers ← call (parse_headers (ns_header args));
  let use_post := ns_post args in
  (if String.eqb url "" then
     log ERROR "URL is required.";;
     raise (mkExn SystemExit "1")
   else mret tt);;
  url ← (if negb (has_scheme url) then
           log WARNING "URL does not start with http:// or https://.  Assuming https://";;
           mret ("https://" +:+ url)
         else mret url);
  log INFO ("Checking GraphQL introspection at: " +:+ url);;
  enabled ← check_introspection w url headers use_post;
  if enabled : bool then print "GraphQL introspection is ENABLED."
  else print "GraphQL introspection is DISABLED or restricted.".

(** Lines 187-209.  Line 187 binds [parser] to the value of
    [setup_argparse()], a [Namespace]; line 188 looks up [parse_args] on
    it and calls the result. *)
Definition main (cli : Result Namespace) (w : World) : Py unit :=
  parser ← setup_argparse cli;
  parse_args ← lift (getattr parser "parse_args");
  args ← lift (call_value parse_args);
  run w args.

(** ** Vocabulary of the statements *)

(** The [except] clauses around what follows the last request: [outcome]
    is what that request came back with. *)
Definition conclude (outcome : Result Response) : Py bool :=
  try_except
    (response ← lift outcome; assign_response response;; classify)
    is_Exception handlers.

(** [final_response w url headers use_post r]: the requests all succeed
    and [r] is the response the verdict is computed from: the answer to
    the POST, or the answer to the GET when the fallback is taken. *)
Inductive final_response (w : World) (url : string)
    (headers : gmap string string) : bool -> Response -> Prop :=
  | final_forced r :
      w (post_request url headers) = Ok r ->
      final_response w url headers true r
  | final_direct r :
      w (post_request url headers) = Ok r ->
      is_html r = false ->
      final_response w url headers false r
  | final_fallback r0 r :
      w (post_request url headers) = Ok r0 ->
      is_html r0 = true ->
      w (get_request url headers) = Ok r ->
      final_response w url headers false r.

(** A 4xx or 5xx status code. *)
Definition error_status (r : Response) : bool :=
  (400 <=? status_code r) && (status_code r <? 600).

(** The raw [Content-Type] header of a response, [""] when it has none. *)
Definition raw_content_type (r : Response) : string :=
  headers_get "Content-Type" "" (resp_headers r).

Fixpoint has_header (key : string) (hs : list (string * string)) : bool :=
  match hs with
  | [] => false
  | (k, _) :: rest =>
      String.eqb (PyStr.lower k) (PyStr.lower key) || has_header key rest
  end.

(** The specification's reading of a parsed body: a top-level field
    [data] that contains a nested field [__schema]. *)
Definition has_schema_field (v : Json) : bool :=
  match v with
  | JObj members =>
      match member "data" members with
      | Some (JObj inner) =>
          match member "__schema" inner with
          | Some _ => true
          | None => false
          end
      | _ => false
      end
  | _ => false
  end.

(** The top-level field [data] holds a JSON array or a JSON string. *)
Definition data_is_sequence (v : Json) : bool :=
  match v with
  | JObj members =>
      match member "data" members with
      | Some (JArr _) | Some (JStr _) => true
      | _ => false
      end
  | _ => false
  end.

(** The URL [main] means to probe: the argument, with [https://] put
    before it when it starts with neither scheme. *)
Definition effective_url (url : string) : string :=
  if has_scheme url then url else "https://" +:+ url.

(** The two verdict lines. *)
Definition verdict_line (enabled : bool) : string :=
  if enabled then "GraphQL introspection is ENABLED."
  else "GraphQL introspection is DISABLED or restricted.".

(** A network whose failures are of the kinds the script expects: a failed
    request raises an [Exception] that is not a bare
    [json.JSONDecodeError], and a body that does not parse raises an
    [Exception]. *)
Definition ordinary (w : World) : Prop :=
  (forall req e, w req = Raise e ->
     is_Exception e = true
     /\ (is_JSONDecodeError e = true -> is_RequestException e = true))
  /\ (forall req r e, w req = Ok r -> json r = Raise e -> is_Exception e = true).

(** A string of whitespace only. *)
Fixpoint all_space (s : string) : bool :=
  match s with
  | EmptyString => true
  | String c s' => PyStr.is_space c && all_space s'
  end.

(** No whitespace at either end. *)
Definition trimmed (s : string) : Prop :=
  (forall c t, s = String c t -> PyStr.is_space c = false)
  /\ (forall t c, s = t +:+ String c EmptyString -> PyStr.is_space c = false).

(** [s] is [raw] without the whitespace around it. *)
Definition trims_to (raw s : string) : Prop :=
  exists pre post,
    raw = pre +:+ s +:+ post
    /\ all_space pre = true /\ all_space post = true /\ trimmed s.

(** The specification's reading of a header argument: well formed when it
    has a colon; its name is the text before the first colon and its value
    the text after it, both trimmed. *)
Definition well_formed (header_str : string) : bool :=
  PyStr.has_char ":" header_str.

Fixpoint before_colon (s : string) : string :=
  match s with
  | EmptyString => EmptyString
  | String c s' =>
      if Ascii.eqb c ":" then EmptyString else String c (before_colon s')
  end.

Fixpoint after_colon (s : string) : string :=
  match s with
  | EmptyString => EmptyString
  | String c s' => if Ascii.eqb c ":" then s' else after_colon s'
  end.

Definition header_key (header_str : string) : string :=
  PyStr.strip (before_colon header_str).

Definition header_value (header_str : string) : string :=
  PyStr.strip (after_colon header_str).

(** The mapping of a list of well-formed header arguments, later entries
    replacing earlier ones of the same name. *)
Fixpoint header_map (acc : gmap string string) (l : list string)
    : gmap string string :=
  match l with
  | [] => acc
  | h :: rest => header_map (<[header_key h := header_value h]> acc) rest
  end.

Definition invalid_header_record (header_str : string) : LogRecord :=
  mkLog ERROR (invalid_header_message header_str).

Definition malformed (header_str : string) : bool :=
  negb (well_formed header_str).

Definition html_notice : LogRecord :=
  mkLog INFO "Received HTML response, attempting GET request with parameters.".

Definition request_failed (e : Exn) : LogRecord :=
  mkLog ERROR ("Request failed: " +:+ exn_str e).

Definition decode_failed (e : Exn) (raw : string) : LogRecord :=
  mkLog ERROR ("Failed to decode JSON response: " +:+ exn_str e +:+
               ".  Raw Response: " +:+ raw).

Definition unexpected_error (e : Exn) : LogRecord :=
  mkLog ERROR ("An unexpected error occurred: " +:+ exn_str e).

(** The frame once [response] is bound to [r]. *)
Definition bound (st : Frame) (r : Response) : Frame :=
  mkFrame (logged st) (sent st) (printed st) (Some r).

(** A server that answers every request with [r]. *)
Definition answering (r : Response) : World := fun _ => Ok r.

(** A server that answers a POST with [r0] and a GET with [outcome]. *)
Definition answering_get (r0 : Response) (outcome : Result Response)
    : World := fun req =>
  match req_method req with
  | POST => Ok r0
  | GET => outcome
  end.

(** The body [{"data": {"__schema": {}}}], parsed. *)
Definition schema_body : Json :=
  JObj [("data", JObj [("__schema", JObj [])])].

Definition endpoint : string := "https://example.com/graphql".

Definition json_header : list (string * string) :=
  [("Content-Type", "application/json")].

(** An HTML page, on which [.json()] fails. *)
Definition html_page : Response :=
  mkResponse 200 [("Content-Type", "text/html; charset=utf-8")]
    "<html></html>" (Raise (mkExn RequestsJSONDecodeError "Expecting value")).

(** A JSON answer with status [status] and parsed body [body]. *)
Definition json_answer (status : Z) (body : Json) : Response :=
  mkResponse status json_header "{}" (Ok body).

Definition schema_answer : Response := json_answer 200 schema_body.

(** The same answer under a header written in another case and with a
    parameter. *)
Definition mixed_case_answer : Response :=
  mkResponse 200 [("content-type", "Application/JSON; charset=utf-8")]
    "{}" (Ok schema_body).

(** A JSON content type and a body that is not JSON, with the error that
    [Response.json()] of requests 2.27 and later raises on it. *)
Definition undecodable_answer : Response :=
  mkResponse 200 json_header "<<not json>>"
    (Raise (mkExn RequestsJSONDecodeError
              "Expecting value: line 1 column 1 (char 0)")).

(** The same with the error of requests before 2.27. *)
Definition undecodable_answer_old : Response :=
  mkResponse 200 json_header "<<not json>>"
    (Raise (mkExn JSONDecodeError
              "Expecting value: line 1 column 1 (char 0)")).

(** The command lines [prog https://example.com/graphql] and
    [prog example.com/graphql], parsed. *)
Definition cli_with_scheme : Namespace :=
  mkNamespace "https://example.com/graphql" [] false.

Definition cli_without_scheme : Namespace :=
  mkNamespace "example.com/graphql" [] false.

(** A plain-text answer. *)
Definition plain_answer : Response :=
  mkResponse 200 [("Content-Type", "text/plain")] "hello"
    (Raise (mkExn RequestsJSONDecodeError "Expecting value")).

(** A network on which every request is cut short by Ctrl-C. *)
Definition interrupted : World := fun _ =>
  Raise (mkExn KeyboardInterrupt "").

(** The command line with an empty URL argument, parsed. *)
Definition cli_empty_url : Namespace := mkNamespace "" ["X-Token: t"] true.

(** The record of line 151. *)
Definition enabled_record : LogRecord :=
  mkLog INFO "GraphQL introspection is enabled.".

(** Whether the GET of line 141 is reached: [use_post] is off and the
    POST is answered with what [is_html] takes for HTML. *)
Definition fallback_taken (w : World) (url : string)
    (headers : gmap string string) (use_post : bool) : bool :=
  negb use_post &&
  match w (post_request url headers) with
  | Ok r0 => is_html r0
  | Raise _ => false
  end.

(** The parsed bodies on which the test of line 150 is true: an object
    whose [data] is an object with the key [__schema], an array with the
    element ["__schema"], or a string with [__schema] in it. *)
Definition passes_schema_test (v : Json) : bool :=
  match v with
  | JObj members =>
      match member "data" members with
      | Some (JObj inner) =>
          match member "__schema" inner with Some _ => true | None => false end
      | Some (JArr items) => existsb (str_equals "__schema") items
      | Some (JStr s) => PyStr.contains "__schema" s
      | _ => false
      end
  | _ => false
  end.

(** The parsed bodies on which the test of line 150 raises: [None], a
    boolean or a number, at top level or under [data]; a string with
    [data] in it or an array with the element ["data"], which a string
    cannot index. *)
Definition schema_test_raises (v : Json) : bool :=
  match v with
  | JNull | JBool _ | JNum _ => true
  | JStr s => PyStr.contains "data" s
  | JArr items => existsb (str_equals "data") items
  | JObj members =>
      match member "data" members with
      | Some JNull | Some (JBool _) | Some (JNum _) => true
      | _ => false
      end
  end.

(** The records [main] logs before the probe, after those about the
    headers: the warning of line 201 when the URL has no scheme, and the
    notice of line 204. *)
Definition url_records (url : string) : list LogRecord :=
  (if has_scheme url then []
   else [mkLog WARNING
           "URL does not start with http:// or https://.  Assuming https://"])
  ++ [mkLog INFO ("Checking GraphQL introspection at: " +:+ effective_url url)].

(** The parsed command line with another URL. *)
Definition with_url (args : Namespace) (url : string) : Namespace :=
  mkNamespace url (ns_header args) (ns_post args).

(** Adding records to the log of a frame. *)
Definition with_log (st : Frame) (records : list LogRecord) : Frame :=
  mkFrame (logged st ++ records) (sent st) (printed st) (var_response st).

(** * Properties *)

(** ** Strings *)

Module PyStrFacts.
Import PyStr.

Lemma append_empty s : EmptyString +:+ s = s.
Proof. reflexivity. Qed.

Lemma append_cons c s t : String c s +:+ t = String c (s +:+ t).
Proof. reflexivity. Qed.

Lemma startswith_refl s : startswith s s = true.
Proof.
  induction s as [|c s IH]; simpl; [reflexivity|].
  rewrite Ascii.eqb_refl. exact IH.
Qed.

Lemma startswith_app p s : startswith p (p +:+ s) = true.
Proof.
  induction p as [|c p IH]; simpl; [reflexivity|].
  rewrite Ascii.eqb_refl. exact IH.
Qed.

Lemma startswith_lower p s :
  startswith p s = true -> startswith (lower p) (lower s) = true.
Proof.
  revert s. induction p as [|a p IH]; intros [|b s]; simpl; try done.
  intros [Hab Hps]%andb_prop. apply Ascii.eqb_eq in Hab as ->.
  rewrite Ascii.eqb_refl. simpl. auto.
Qed.

Lemma contains_lower p s :
  contains p s = true -> contains (lower p) (lower s) = true.
Proof.
  induction s as [|c s IH]; simpl.
  - rewrite !orb_false_r. apply (startswith_lower p EmptyString).
  - intros [H|H]%orb_prop; apply orb_true_intro.
    + left. apply (startswith_lower p (String c s)), H.
    + right. auto.
Qed.

(** A needle already in lower case is found in the lowered text whenever
    it is found in the text. *)
Lemma contains_lowered p s :
  lower p = p -> contains p s = true -> contains p (lower s) = true.
Proof. intros Hp H. rewrite <- Hp. by apply contains_lower. Qed.

Lemma contains_empty_text p : contains p EmptyString = true -> p = EmptyString.
Proof. destruct p; simpl; [done|discriminate]. Qed.

Lemma lower_idem s : lower (lower s) = lower s.
Proof.
  induction s as [|c s IH]; simpl; [done|]. f_equal; [|done].
  clear. unfold lower_char at 1.
  destruct c as [[] [] [] [] [] [] [] []]; reflexivity.
Qed.

(** [split1] cuts at the first separator, and only there. *)
Lemma split1_without sep s :
  has_char sep s = false -> split1 sep s = [s].
Proof.
  induction s as [|c s IH]; simpl; [done|].
  intros [Hc Hs]%orb_false_elim. rewrite Hc, (IH Hs). done.
Qed.

Lemma split1_with sep s :
  has_char sep s = true ->
  exists a b, split1 sep s = [a; b] /\ s = a +:+ String sep b
              /\ has_char sep a = false.
Proof.
  induction s as [|c s IH]; simpl; [discriminate|].
  destruct (Ascii.eqb c sep) eqn:Hc; simpl.
  - intros _. apply Ascii.eqb_eq in Hc as ->.
    exists EmptyString, s. done.
  - intros (a & b & -> & -> & Ha)%IH.
    exists (String c a), b. simpl. by rewrite Hc, Ha.
Qed.

End PyStrFacts.

(** ** The shape of a run of [check_introspection] *)

Section Runs.
Variable w : World.
Variable url : string.
Variable headers : gmap string string.

Let post := post_request url headers.
Let get := get_request url headers.

(** With [use_post] there is the POST and nothing else. *)
Lemma check_forced st :
  check_introspection w url headers true st =
  conclude (w post) (mkFrame (logged st) (sent st ++ [post]) (printed st) None).
Proof.
  unfold check_introspection, call, conclude, try_except, try_block,
    requests_post, request, lift, mbind, py_bind, assign_response. simpl.
  fold post. destruct (w post); reflexivity.
Qed.

Lemma check_post_failed st e :
  w post = Raise e ->
  check_introspection w url headers false st =
  conclude (Raise e)
    (mkFrame (logged st) (sent st ++ [post]) (printed st) None).
Proof.
  intros H.
  unfold check_introspection, call, conclude, try_except, try_block,
    requests_post, request, lift, mbind, py_bind. simpl.
  fold post. rewrite H. reflexivity.
Qed.

Lemma check_direct st r :
  w post = Ok r -> is_html r = false ->
  check_introspection w url headers false st =
  conclude (Ok r)
    (mkFrame (logged st) (sent st ++ [post]) (printed st) None).
Proof.
  intros H Hh.
  unfold check_introspection, call, conclude, try_except, try_block,
    requests_post, request, lift, mbind, py_bind, assign_response. simpl.
  fold post. rewrite H, Hh. reflexivity.
Qed.

Lemma check_fallback st r0 :
  w post = Ok r0 -> is_html r0 = true ->
  check_introspection w url headers false st =
  conclude (w get)
    (mkFrame (logged st ++ [html_notice]) (sent st ++ [post; get])
       (printed st) (Some r0)).
Proof.
  intros H Hh.
  unfold check_introspection, call, conclude, try_except, try_block,
    requests_post, requests_get, request, lift, mbind, py_bind,
    assign_response, log. simpl.
  fold post get. rewrite H, Hh. simpl. rewrite <- app_assoc. simpl.
  destruct (w get); reflexivity.
Qed.

End Runs.

(** ** What follows the last request *)

Lemma has_schema_raises v e :
  has_schema v = Raise e ->
  is_Exception e = true /\ is_RequestException e = false
  /\ is_JSONDecodeError e = false.
Proof.
  unfold has_schema.
  destruct v as [| | | s | items | members]; simpl;
    try (intros [= <-]; done).
  - destruct (PyStr.contains "data" s); [|done]. intros [= <-]; done.
  - destruct (existsb _ items); [|done]. intros [= <-]; done.
  - destruct (member "data" members) as [inner|]; [|done].
    destruct inner; simpl; try done; intros [= <-]; done.
Qed.

Section Conclude.
Variable st : Frame.
Variable r : Response.

(** A 4xx or 5xx answer is a failed request. *)
Lemma conclude_error_status :
  error_status r = true ->
  exists e,
    exn_class e = HTTPError /\
    conclude (Ok r) st =
    (Ok false, with_log (bound st r) [request_failed e]).
Proof.
  intros H. eexists. split; [shelve|].
  unfold conclude, try_except, classify, raise_for_status, lift, mbind,
    py_bind, assign_response, read_response. simpl.
  fold (error_status r). rewrite H. reflexivity.
  Unshelve. reflexivity.
Qed.

(** Anything but JSON is refused without a look at the body. *)
Lemma conclude_not_json :
  error_status r = false ->
  PyStr.contains "application/json" (content_type r) = false ->
  conclude (Ok r) st =
  (Ok false,
   with_log (bound st r)
     [mkLog WARNING (unexpected_content_type_message (content_type r))]).
Proof.
  intros H Hct.
  unfold conclude, try_except, classify, raise_for_status, lift, mbind,
    py_bind, assign_response, read_response. simpl.
  fold (error_status r). rewrite H. unfold mret, py_ret. simpl.
  rewrite Hct. reflexivity.
Qed.

(** A parsed body is judged by the membership test of line 150; a test
    that raises counts as [False]. *)
Lemma conclude_parsed v :
  error_status r = false ->
  PyStr.contains "application/json" (content_type r) = true ->
  json r = Ok v ->
  fst (conclude (Ok r) st) =
  Ok (match has_schema v with Ok b => b | Raise _ => false end).
Proof.
  intros H Hct Hv.
  unfold conclude, try_except, classify, raise_for_status, lift, mbind,
    py_bind, assign_response, read_response. simpl.
  fold (error_status r). rewrite H. unfold mret, py_ret. simpl.
  rewrite Hct, Hv. simpl.
  destruct (has_schema v) as [[]|e] eqn:Hs; simpl; try reflexivity.
  destruct (has_schema_raises _ _ Hs) as (-> & Hr & Hj).
  unfold handlers. rewrite Hr, Hj. reflexivity.
Qed.

(** A body that does not parse: the clause that handles the error is the
    first one its class matches. *)
Lemma conclude_unparsed e :
  error_status r = false ->
  PyStr.contains "application/json" (content_type r) = true ->
  json r = Raise e ->
  conclude (Ok r) st =
  if is_Exception e then
    (Ok false,
     with_log (bound st r)
       [if is_RequestException e then request_failed e
        else if is_JSONDecodeError e then decode_failed e (text r)
        else unexpected_error e])
  else (Raise e, bound st r).
Proof.
  intros H Hct He.
  unfold conclude, try_except, classify, raise_for_status, lift, mbind,
    py_bind, assign_response, read_response. simpl.
  fold (error_status r). rewrite H. unfold mret, py_ret. simpl.
  rewrite Hct, He. simpl.
  destruct (is_Exception e); [|reflexivity].
  unfold handlers.
  destruct (is_RequestException e); [reflexivity|].
  destruct (is_JSONDecodeError e); reflexivity.
Qed.

End Conclude.

(** A request that raises: the verdict is [False] unless the error is not
    an [Exception], or is a bare [json.JSONDecodeError] met before
    [response] was ever bound. *)
Lemma conclude_raised st e :
  fst (conclude (Raise e) st) =
  if is_Exception e then
    if is_RequestException e then Ok false
    else if is_JSONDecodeError e then
      match var_response st with
      | Some _ => Ok false
      | None =>
          Raise (mkExn UnboundLocalError
            "cannot access local variable 'response' where it is not associated with a value")
      end
    else Ok false
  else Raise e.
Proof.
  unfold conclude, try_except, lift, mbind, py_bind. simpl.
  destruct (is_Exception e); [|reflexivity].
  unfold handlers.
  destruct (is_RequestException e); [reflexivity|].
  destruct (is_JSONDecodeError e); [|reflexivity].
  unfold read_response, mbind, py_bind.
  destruct (var_response st); reflexivity.
Qed.

(** The verdict computed from a response does not depend on the frame
    it is computed in. *)
Lemma conclude_frame_irrelevant r st st' :
  fst (conclude (Ok r) st) = fst (conclude (Ok r) st').
Proof.
  destruct (error_status r) eqn:Hs.
  - destruct (conclude_error_status st r Hs) as (e & _ & ->).
    destruct (conclude_error_status st' r Hs) as (e' & _ & ->). reflexivity.
  - destruct (PyStr.contains "application/json" (content_type r)) eqn:Hct.
    + destruct (json r) as [v|e] eqn:Hj.
      * by rewrite !(conclude_parsed _ _ v).
      * rewrite !(conclude_unparsed _ _ e) by done.
        destruct (is_Exception e); reflexivity.
    + by rewrite !conclude_not_json.
Qed.

(** Nothing is sent and nothing is printed after the last request. *)
Lemma conclude_quiet outcome st :
  sent (snd (conclude outcome st)) = sent st
  /\ printed (snd (conclude outcome st)) = printed st.
Proof.
  destruct outcome as [r|e].
  - destruct (error_status r) eqn:Hs.
    + destruct (conclude_error_status st r Hs) as (e & _ & ->). done.
    + destruct (PyStr.contains "application/json" (content_type r)) eqn:Hct.
      * destruct (json r) as [v|e] eqn:Hj.
        -- unfold conclude, try_except, classify, raise_for_status, lift,
             mbind, py_bind, assign_response, read_response. simpl.
           fold (error_status r). rewrite Hs. unfold mret, py_ret. simpl.
           rewrite Hct, Hj. simpl.
           destruct (has_schema v) as [[]|e] eqn:Hv; simpl; try done.
           destruct (has_schema_raises _ _ Hv) as (-> & Hr & Hd).
           unfold handlers. rewrite Hr, Hd. done.
        -- rewrite (conclude_unparsed _ _ e) by done.
           destruct (is_Exception e); done.
      * rewrite conclude_not_json by done. done.
  - unfold conclude, try_except, lift, mbind, py_bind. simpl.
    destruct (is_Exception e); [|done].
    unfold handlers.
    destruct (is_RequestException e); [done|].
    destruct (is_JSONDecodeError e); [|done].
    unfold read_response, mbind, py_bind.
    destruct (var_response st); done.
Qed.

(** When the requests succeed, the verdict is the one computed from the
    final response. *)
Lemma check_final w url headers use_post r st :
  final_response w url headers use_post r ->
  exists st', check_introspection w url headers use_post st = conclude (Ok r) st'.
Proof.
  intros [r' H | r' H Hh | r0 r' H Hh Hg].
  - eexists. rewrite check_forced, H. reflexivity.
  - eexists. by apply check_direct.
  - eexists. rewrite (check_fallback _ _ _ _ r0), Hg by done. reflexivity.
Qed.

Lemma check_final_verdict w url headers use_post r st :
  final_response w url headers use_post r ->
  fst (check_introspection w url headers use_post st) =
  fst (conclude (Ok r) start).
Proof.
  intros [st' ->]%(check_final _ _ _ _ _ st).
  apply conclude_frame_irrelevant.
Qed.

(** The header test of line 148 accepts what contains the media type as
    written. *)
Lemma json_content_type r :
  PyStr.contains "application/json" (raw_content_type r) = true ->
  PyStr.contains "application/json" (content_type r) = true.
Proof. apply PyStrFacts.contains_lowered. reflexivity. Qed.

Lemma html_content_type r :
  PyStr.contains "text/html" (raw_content_type r) = true ->
  is_html r = true.
Proof. apply PyStrFacts.contains_lowered. reflexivity. Qed.

(** Apart from arrays and strings under [data], the membership test of
    line 150 is the test for the two nested fields. *)
Lemma has_schema_is_field_test v :
  data_is_sequence v = false ->
  match has_schema v with Ok b => b | Raise _ => false end = has_schema_field v.
Proof.
  unfold has_schema, has_schema_field, data_is_sequence.
  destruct v as [| | | s | items | members]; simpl; try done.
  - by destruct (PyStr.contains "data" s).
  - by destruct (existsb _ items).
  - destruct (member "data" members) as [inner|]; [|done].
    destruct inner; simpl; done.
Qed.

(** ** The requests sent *)

(** C4: with [use_post] set, [check_introspection] sends the POST and
    nothing else, whatever comes back: one POST to the URL with the query
    as JSON body, the headers and a timeout of 10 seconds, and no GET. *)
Theorem forced_post_sends_one_post (w : World) (url : string)
    (headers : gmap string string) (st : Frame) :
  sent (snd (check_introspection w url headers true st)) =
  sent st ++ [mkRequest POST url (Some [("query", INTROSPECTION_QUERY)])
                None headers 10].
Proof.
  rewrite check_forced.
  destruct (conclude_quiet (w (post_request url headers))
              (mkFrame (logged st) (sent st ++ [post_request url headers])
                 (printed st) None)) as [-> _].
  reflexivity.
Qed.

(** C3: without [use_post], when the POST is answered with a
    [Content-Type] that contains [text/html], one GET follows, to the
    same URL, with the query as URL parameters, the same headers and the
    same timeout of 10 seconds, and the verdict is computed from what the
    GET comes back with alone: it is the verdict that answer would get as
    the only response, [False] when the GET fails, and the same in every
    run whose GET comes back with the same. *)
Theorem html_answer_falls_back_to_get (w : World) (url : string)
    (headers : gmap string string) (st : Frame) (r0 : Response) :
  w (post_request url headers) = Ok r0 ->
  PyStr.contains "text/html" (raw_content_type r0) = true ->
  let run := check_introspection w url headers false st in
  sent (snd run) =
    sent st ++ [post_request url headers;
                mkRequest GET url None (Some [("query", INTROSPECTION_QUERY)])
                  headers 10]
  /\ (forall r, w (get_request url headers) = Ok r ->
        fst run = fst (check_introspection (answering r) url headers true st))
  /\ (forall e, w (get_request url headers) = Raise e ->
        is_Exception e = true -> fst run = Ok false)
  /\ (forall w' url' headers' st' r0',
        w' (post_request url' headers') = Ok r0' ->
        is_html r0' = true ->
        w' (get_request url' headers') = w (get_request url headers) ->
        fst (check_introspection w' url' headers' false st') = fst run).
Proof.
  intros Hpost Hct%html_content_type run. subst run.
  rewrite (check_fallback _ _ _ _ r0) by done.
  split; [|split; [|split]].
  - match goal with |- sent (snd (conclude ?o ?f)) = _ =>
      destruct (conclude_quiet o f) as [-> _] end.
    reflexivity.
  - intros r Hget. rewrite Hget, check_forced. unfold answering.
    apply conclude_frame_irrelevant.
  - intros e Hget He. rewrite Hget, conclude_raised, He. simpl.
    destruct (is_RequestException e); [done|].
    destruct (is_JSONDecodeError e); done.
  - intros w' url' headers' st' r0' Hpost' Hct' Hget'.
    rewrite (check_fallback _ _ _ _ r0') by done. rewrite Hget'.
    destruct (w (get_request url headers)) as [r|e].
    + apply conclude_frame_irrelevant.
    + rewrite !conclude_raised. reflexivity.
Qed.

Lemma html_answer_falls_back_to_get_witness :
  map req_method
    (sent (snd (check_introspection
                  (answering_get html_page (Ok schema_answer))
                  endpoint ∅ false start))) = [POST; GET]
  /\ fst (check_introspection (answering_get html_page (Ok schema_answer))
            endpoint ∅ false start) = Ok true.
Proof.
  pose proof (html_answer_falls_back_to_get
                (answering_get html_page (Ok schema_answer))
                endpoint ∅ start html_page eq_refl eq_refl) as (Hs & Hr & _).
  split.
  - rewrite Hs. reflexivity.
  - rewrite (Hr schema_answer eq_refl). reflexivity.
Defined.

(** ** The verdict *)

(** C1, refuted as stated: a response with status 500, a JSON content
    type and the body [{"data": {"__schema": {}}}] has the two nested
    fields and gets [False], because line 144 raises before the body is
    looked at. *)
Lemma schema_field_with_error_status :
  final_response (answering (json_answer 500 schema_body)) endpoint ∅ true
    (json_answer 500 schema_body)
  /\ PyStr.contains "application/json"
       (raw_content_type (json_answer 500 schema_body)) = true
  /\ json (json_answer 500 schema_body) = Ok schema_body
  /\ has_schema_field schema_body = true
  /\ fst (check_introspection (answering (json_answer 500 schema_body))
            endpoint ∅ true start) = Ok false.
Proof. split; [by apply final_forced|]. repeat split. Qed.

(** The test of line 150 is Python's [in]: under [data], a string that
    contains [__schema] or an array that holds it passes for the nested
    field. *)
Lemma schema_text_passes_for_field :
  has_schema_field (JObj [("data", JStr "no __schema here")]) = false
  /\ fst (check_introspection
            (answering (json_answer 200 (JObj [("data", JStr "no __schema here")])))
            endpoint ∅ true start) = Ok true
  /\ has_schema_field (JObj [("data", JArr [JStr "__schema"])]) = false
  /\ fst (check_introspection
            (answering (json_answer 200 (JObj [("data", JArr [JStr "__schema"])])))
            endpoint ∅ true start) = Ok true.
Proof. repeat split. Qed.

(** C1, amended: for a final response whose status is neither 4xx nor
    5xx, whose [Content-Type] contains [application/json] and whose body
    parses to a value with no array or string under [data],
    [check_introspection] returns [True] exactly when the value has a
    top-level field [data] with a nested field [__schema]; so
    [{"data": {"__schema": ...}}] gives [True], and [{"data": null}] and
    [{"errors": [...]}] give [False]. *)
Theorem schema_field_decides_verdict (w : World) (url : string)
    (headers : gmap string string) (use_post : bool) (st : Frame)
    (r : Response) (v : Json) :
  final_response w url headers use_post r ->
  error_status r = false ->
  PyStr.contains "application/json" (raw_content_type r) = true ->
  json r = Ok v ->
  data_is_sequence v = false ->
  let verdict := fst (check_introspection w url headers use_post st) in
  (verdict = Ok true <-> has_schema_field v = true)
  /\ (verdict = Ok false <-> has_schema_field v = false)
  /\ (forall schema rest,
        v = JObj (("data", JObj (("__schema", schema) :: rest)) :: []) ->
        verdict = Ok true)
  /\ (v = JObj [("data", JNull)] -> verdict = Ok false)
  /\ (forall errors, v = JObj [("errors", JArr errors)] -> verdict = Ok false).
Proof.
  intros Hfin Hst Hct%json_content_type Hv Hseq verdict.
  assert (Hverdict : verdict = Ok (has_schema_field v)).
  { subst verdict. rewrite (check_final_verdict _ _ _ _ r) by done.
    rewrite (conclude_parsed _ _ v) by done.
    by rewrite has_schema_is_field_test. }
  rewrite Hverdict. repeat split.
  - by intros [= ->].
  - by intros ->.
  - by intros [= ->].
  - by intros ->.
  - by intros schema rest ->.
  - by intros ->.
  - by intros errors ->.
Qed.

Lemma schema_field_decides_verdict_witness :
  fst (check_introspection (answering schema_answer) endpoint ∅ false start)
  = Ok true.
Proof.
  apply (schema_field_decides_verdict (answering schema_answer) endpoint ∅
           false start schema_answer schema_body).
  - by apply final_direct.
  - reflexivity.
  - reflexivity.
  - reflexivity.
  - reflexivity.
  - reflexivity.
Defined.

(** C5, refuted as stated: status 600 is at least 400, line 144 lets it
    through, and the body decides. *)
Lemma status_600_is_not_an_error :
  final_response (answering (json_answer 600 schema_body)) endpoint ∅ true
    (json_answer 600 schema_body)
  /\ 400 <= status_code (json_answer 600 schema_body)
  /\ fst (check_introspection (answering (json_answer 600 schema_body))
            endpoint ∅ true start) = Ok true.
Proof. split; [by apply final_forced|]. split; [simpl; lia|]. reflexivity. Qed.

(** C5, amended: a final response with a 4xx or 5xx status makes
    [check_introspection] log "Request failed" as an error and return
    [False]; nothing is raised. *)
Theorem error_status_yields_false (w : World) (url : string)
    (headers : gmap string string) (use_post : bool) (st : Frame)
    (r : Response) :
  final_response w url headers use_post r ->
  400 <= status_code r < 600 ->
  let run := check_introspection w url headers use_post st in
  fst run = Ok false
  /\ exists e earlier,
       exn_class e = HTTPError
       /\ logged (snd run) = earlier ++ [mkLog ERROR ("Request failed: " +:+ exn_str e)].
Proof.
  intros Hfin Hst run. subst run.
  assert (Hs : error_status r = true).
  { unfold error_status. apply andb_true_intro. split; lia. }
  destruct (check_final _ _ _ _ _ st Hfin) as [st' ->].
  destruct (conclude_error_status st' r Hs) as (e & He & ->).
  split; [reflexivity|]. exists e, (logged st'). done.
Qed.

Lemma error_status_yields_false_witness :
  fst (check_introspection (answering (json_answer 404 schema_body))
         endpoint ∅ false start) = Ok false.
Proof.
  apply (error_status_yields_false (answering (json_answer 404 schema_body))
           endpoint ∅ false start (json_answer 404 schema_body)).
  - by apply final_direct.
  - simpl. lia.
Defined.

(** A body that does not parse gives [False] whatever [.json()] raises;
    the record logged is that of the first clause the error matches. *)
Lemma undecodable_body_yields_false (w : World) (url : string)
    (headers : gmap string string) (use_post : bool) (st : Frame)
    (r : Response) (e : Exn) :
  final_response w url headers use_post r ->
  error_status r = false ->
  PyStr.contains "application/json" (raw_content_type r) = true ->
  json r = Raise e ->
  is_Exception e = true ->
  let run := check_introspection w url headers use_post st in
  fst run = Ok false
  /\ exists earlier,
       logged (snd run) =
       earlier ++ [if is_RequestException e then request_failed e
                   else if is_JSONDecodeError e then decode_failed e (text r)
                   else unexpected_error e].
Proof.
  intros Hfin Hst Hct%json_content_type Hj He run. subst run.
  destruct (check_final _ _ _ _ _ st Hfin) as [st' ->].
  rewrite (conclude_unparsed _ _ e), He by done.
  split; [reflexivity|]. by exists (logged st').
Qed.

(** C6, at a failing input: the answer has a JSON content type and a body
    that is not JSON, and [.json()] raises the error of requests 2.27 and
    later, which is a [RequestException] too.  The first [except] clause
    takes it: the run returns [False] and logs "Request failed" with the
    parser's message, not the record of lines 163-165, and the raw
    response text is not in the log. *)
Theorem undecodable_body_is_a_failed_request :
  PyStr.contains "application/json" (raw_content_type undecodable_answer) = true
  /\ check_introspection (answering undecodable_answer) endpoint ∅ true start =
     (Ok false,
      mkFrame
        [mkLog ERROR "Request failed: Expecting value: line 1 column 1 (char 0)"]
        [post_request endpoint ∅] [] (Some undecodable_answer))
  /\ forallb (fun record =>
                negb (PyStr.contains (text undecodable_answer) (message record)))
       (logged (snd (check_introspection (answering undecodable_answer)
                       endpoint ∅ true start))) = true.
Proof. repeat split. Qed.

(** The clause of lines 163-165 is the one taken when the error is a
    [json.JSONDecodeError] and nothing more, as before requests 2.27. *)
Lemma undecodable_body_old_requests :
  logged (snd (check_introspection (answering undecodable_answer_old)
                 endpoint ∅ true start)) =
  [mkLog ERROR
     "Failed to decode JSON response: Expecting value: line 1 column 1 (char 0).  Raw Response: <<not json>>"].
Proof. reflexivity. Qed.

(** ** The content-type tests *)

Lemma headers_get_absent key default hs :
  has_header key hs = false -> headers_get key default hs = default.
Proof.
  induction hs as [|[k v] hs IH]; simpl; [done|].
  intros [-> H]%orb_false_elim. auto.
Qed.

Lemma check_direct_sent w url headers st r0 :
  w (post_request url headers) = Ok r0 -> is_html r0 = false ->
  sent (snd (check_introspection w url headers false st)) =
  sent st ++ [post_request url headers].
Proof.
  intros H Hh. rewrite (check_direct _ _ _ _ r0) by done.
  match goal with |- sent (snd (conclude ?o ?f)) = _ =>
    destruct (conclude_quiet o f) as [-> _] end.
  reflexivity.
Qed.

Lemma check_fallback_sent w url headers st r0 :
  w (post_request url headers) = Ok r0 -> is_html r0 = true ->
  sent (snd (check_introspection w url headers false st)) =
  sent st ++ [post_request url headers; get_request url headers].
Proof.
  intros H Hh. rewrite (check_fallback _ _ _ _ r0) by done.
  match goal with |- sent (snd (conclude ?o ?f)) = _ =>
    destruct (conclude_quiet o f) as [-> _] end.
  reflexivity.
Qed.

(** C10: both content-type tests are substring tests on the lower-cased
    [Content-Type] header, [""] when the response has none.  After an
    answered POST without [use_post], the GET is sent exactly when the
    lowered header contains [text/html]; a final response whose lowered
    header contains [application/json] has its body parsed and judged,
    and any other gets [False]; two headers that differ in case only are
    treated alike; [Application/JSON; charset=utf-8] is accepted; a
    response without [Content-Type] gets [False]. *)
Theorem content_type_tests_ignore_case (w : World) (url : string)
    (headers : gmap string string) (st : Frame) (r0 : Response) :
  w (post_request url headers) = Ok r0 ->
  sent (snd (check_introspection w url headers false st)) =
    sent st ++
    (if PyStr.contains "text/html" (PyStr.lower (raw_content_type r0))
     then [post_request url headers; get_request url headers]
     else [post_request url headers])
  /\ (forall use_post r v,
        final_response w url headers use_post r ->
        error_status r = false ->
        PyStr.contains "application/json" (PyStr.lower (raw_content_type r)) = true ->
        json r = Ok v ->
        fst (check_introspection w url headers use_post st) =
        Ok (match has_schema v with Ok b => b | Raise _ => false end))
  /\ (forall use_post r,
        final_response w url headers use_post r ->
        PyStr.contains "application/json" (PyStr.lower (raw_content_type r)) = false ->
        fst (check_introspection w url headers use_post st) = Ok false)
  /\ (forall r r',
        PyStr.lower (raw_content_type r) = PyStr.lower (raw_content_type r') ->
        is_html r = is_html r'
        /\ PyStr.contains "application/json" (content_type r) =
           PyStr.contains "application/json" (content_type r'))
  /\ (forall use_post r v,
        final_response w url headers use_post r ->
        error_status r = false ->
        raw_content_type r = "Application/JSON; charset=utf-8" ->
        json r = Ok v ->
        fst (check_introspection w url headers use_post st) =
        Ok (match has_schema v with Ok b => b | Raise _ => false end))
  /\ (forall use_post r,
        final_response w url headers use_post r ->
        has_header "Content-Type" (resp_headers r) = false ->
        fst (check_introspection w url headers use_post st) = Ok false).
Proof.
  intros Hpost.
  assert (Hjson : forall use_post r v,
             final_response w url headers use_post r ->
             error_status r = false ->
             PyStr.contains "application/json" (content_type r) = true ->
             json r = Ok v ->
             fst (check_introspection w url headers use_post st) =
             Ok (match has_schema v with Ok b => b | Raise _ => false end)).
  { intros use_post r v Hfin Hst Hct Hv.
    rewrite (check_final_verdict _ _ _ _ r) by done.
    by apply conclude_parsed. }
  assert (Hother : forall use_post r,
             final_response w url headers use_post r ->
             PyStr.contains "application/json" (content_type r) = false ->
             fst (check_introspection w url headers use_post st) = Ok false).
  { intros use_post r Hfin Hct.
    rewrite (check_final_verdict _ _ _ _ r) by done.
    destruct (error_status r) eqn:Hst.
    - by destruct (conclude_error_status start r Hst) as (e & _ & ->).
    - by rewrite conclude_not_json. }
  split; [|split; [|split; [|split; [|split]]]].
  - change (PyStr.contains "text/html" (PyStr.lower (raw_content_type r0)))
      with (is_html r0).
    destruct (is_html r0) eqn:Hh.
    + by apply (check_fallback_sent _ _ _ _ r0).
    + by apply (check_direct_sent _ _ _ _ r0).
  - exact Hjson.
  - exact Hother.
  - intros r r' H. unfold is_html, content_type, raw_content_type in *.
    by rewrite H.
  - intros use_post r v Hfin Hst Hct Hv. apply (Hjson use_post r v); try done.
    unfold content_type. fold (raw_content_type r). by rewrite Hct.
  - intros use_post r Hfin Hct. apply (Hother use_post r Hfin).
    unfold content_type. by rewrite (headers_get_absent _ _ _ Hct).
Qed.

Lemma content_type_tests_ignore_case_witness :
  fst (check_introspection (answering mixed_case_answer) endpoint ∅ false start)
  = Ok true.
Proof.
  destruct (content_type_tests_ignore_case (answering mixed_case_answer)
              endpoint ∅ start mixed_case_answer eq_refl)
    as (_ & _ & _ & _ & H & _).
  apply (H false mixed_case_answer schema_body); try reflexivity.
  by apply final_direct.
Defined.

(** ** [parse_headers] *)

Lemma with_log_nil st : with_log st [] = st.
Proof. destruct st. unfold with_log. simpl. by rewrite app_nil_r. Qed.

Lemma with_log_app st a b : with_log (with_log st a) b = with_log st (a ++ b).
Proof. unfold with_log. simpl. by rewrite app_assoc. Qed.

Lemma split1_colon s :
  well_formed s = true ->
  PyStr.split1 ":" s = [before_colon s; after_colon s].
Proof.
  unfold well_formed.
  induction s as [|c s IH]; simpl; [discriminate|].
  destruct (Ascii.eqb c ":"); simpl; [done|].
  intros H. by rewrite (IH H).
Qed.

(** The name of a well-formed header argument ends at its first colon. *)
Lemma first_colon s :
  well_formed s = true ->
  s = before_colon s +:+ String ":" (after_colon s)
  /\ PyStr.has_char ":" (before_colon s) = false.
Proof.
  intros H. destruct (PyStrFacts.split1_with ":" s H) as (a & b & Hs & Heq & Ha).
  rewrite (split1_colon s H) in Hs. injection Hs as <- <-. done.
Qed.

Lemma parse_header_well_formed headers h st :
  well_formed h = true ->
  parse_header headers h st =
  (Ok (<[header_key h := header_value h]> headers), st).
Proof.
  intros H. unfold parse_header, try_except, lift, mbind, py_bind.
  rewrite (split1_colon h H). reflexivity.
Qed.

Lemma parse_header_malformed headers h st :
  well_formed h = false ->
  parse_header headers h st = (Ok headers, with_log st [invalid_header_record h]).
Proof.
  intros H. unfold parse_header, try_except, lift, mbind, py_bind.
  rewrite (PyStrFacts.split1_without ":" h H). reflexivity.
Qed.

Lemma parse_headers_from_spec l : forall headers st,
  parse_headers_from headers l st =
  (Ok (header_map headers (List.filter well_formed l)),
   with_log st (map invalid_header_record (List.filter malformed l))).
Proof.
  induction l as [|h l IH]; intros headers st; simpl.
  - by rewrite with_log_nil.
  - unfold mbind, py_bind, malformed.
    destruct (well_formed h) eqn:Hh; simpl.
    + rewrite parse_header_well_formed by done. apply IH.
    + rewrite parse_header_malformed by done. rewrite IH.
      by rewrite with_log_app.
Qed.

Lemma filter_well_formed_twice l :
  List.filter well_formed (List.filter well_formed l) = List.filter well_formed l.
Proof.
  induction l as [|h l IH]; simpl; [done|].
  destruct (well_formed h) eqn:Hh; simpl; [|done]. by rewrite Hh, IH.
Qed.

Lemma filter_malformed_of_well_formed l :
  List.filter malformed (List.filter well_formed l) = [].
Proof.
  induction l as [|h l IH]; simpl; [done|].
  destruct (well_formed h) eqn:Hh; simpl; [|done].
  unfold malformed at 1. by rewrite Hh.
Qed.

Lemma header_map_app l1 : forall acc l2,
  header_map acc (l1 ++ l2) = header_map (header_map acc l1) l2.
Proof. induction l1 as [|h l1 IH]; intros acc l2; simpl; [done|]. apply IH. Qed.

(** Entries of other names leave a name alone. *)
Lemma header_map_other l : forall acc k,
  (forall h, In h l -> header_key h <> k) ->
  header_map acc l !! k = acc !! k.
Proof.
  induction l as [|h l IH]; intros acc k Hk; simpl; [done|].
  rewrite IH by (intros h' Hh'; apply Hk; by right).
  apply lookup_insert_ne, Hk. by left.
Qed.

(** The last entry of a name decides its value. *)
Lemma header_map_last l1 h l2 acc :
  (forall h', In h' l2 -> header_key h' <> header_key h) ->
  header_map acc (l1 ++ h :: l2) !! header_key h = Some (header_value h).
Proof.
  intros Hk. rewrite header_map_app. simpl.
  rewrite header_map_other by done. apply lookup_insert_eq.
Qed.

(** Every value of the mapping comes from an entry of the list. *)
Lemma header_map_origin l : forall acc k v,
  header_map acc l !! k = Some v ->
  acc !! k = Some v
  \/ exists h, In h l /\ k = header_key h /\ v = header_value h.
Proof.
  induction l as [|h l IH]; intros acc k v; simpl; [by left|].
  intros [H|(h' & Hin & Hk & Hv)]%IH.
  - destruct (decide (header_key h = k)) as [<-|Hne].
    + rewrite lookup_insert_eq in H. injection H as <-.
      right. exists h. auto.
    + rewrite lookup_insert_ne in H by done. by left.
  - right. exists h'. auto.
Qed.

(** A name once in the mapping stays in it. *)
Lemma header_map_keeps l : forall acc k,
  is_Some (acc !! k) -> is_Some (header_map acc l !! k).
Proof.
  induction l as [|h l IH]; intros acc k Hk; simpl; [done|].
  apply IH. destruct (decide (header_key h = k)) as [<-|Hne].
  - rewrite lookup_insert_eq. by eexists.
  - by rewrite lookup_insert_ne.
Qed.

(** Every entry's name is in the mapping. *)
Lemma header_map_present l : forall acc h,
  In h l -> is_Some (header_map acc l !! header_key h).
Proof.
  induction l as [|h0 l IH]; intros acc h; simpl; [done|].
  intros [->|Hin]; [|by apply IH].
  apply header_map_keeps. rewrite lookup_insert_eq. by eexists.
Qed.

(** ** Trimming *)

Lemma lstrip_spec s :
  exists pre, s = pre +:+ PyStr.lstrip s /\ all_space pre = true
    /\ forall c t, PyStr.lstrip s = String c t -> PyStr.is_space c = false.
Proof.
  induction s as [|c s (pre & Heq & Hpre & Hfirst)]; simpl.
  - exists EmptyString. done.
  - destruct (PyStr.is_space c) eqn:Hc.
    + exists (String c pre). simpl. rewrite Hc, Hpre.
      split; [|done].
      change (String c s = String c (pre +:+ PyStr.lstrip s)). by f_equal.
    + exists EmptyString. repeat split. by intros c' t [= <- <-].
Qed.

Lemma rstrip_spec s :
  exists post, s = PyStr.rstrip s +:+ post /\ all_space post = true
    /\ forall t c, PyStr.rstrip s = t +:+ String c EmptyString ->
                   PyStr.is_space c = false.
Proof.
  induction s as [|c s (post & Heq & Hpost & Hlast)]; simpl.
  - exists EmptyString. repeat split. by intros [|? ?].
  - destruct (PyStr.rstrip s) as [|d u] eqn:Hr.
    + rewrite PyStrFacts.append_empty in Heq. subst post.
      destruct (PyStr.is_space c) eqn:Hc.
      * exists (String c s). rewrite PyStrFacts.append_empty. simpl.
        rewrite Hc, Hpost. repeat split. by intros [|? ?].
      * exists s. rewrite PyStrFacts.append_cons, PyStrFacts.append_empty.
        repeat split; [done|].
        intros [|a t] c'.
        -- rewrite PyStrFacts.append_empty. by intros [= <-].
        -- rewrite PyStrFacts.append_cons. intros [= _ H]. by destruct t.
    + exists post. rewrite PyStrFacts.append_cons, <- Heq.
      repeat split; [done|].
      intros [|a t] c'.
      * rewrite PyStrFacts.append_empty. intros H. discriminate H.
      * rewrite PyStrFacts.append_cons. intros [= _ H]. by apply (Hlast t c').
Qed.

(** [rstrip] leaves a first character that is not whitespace in place. *)
Lemma rstrip_first c s :
  PyStr.is_space c = false ->
  exists t, PyStr.rstrip (String c s) = String c t.
Proof.
  intros Hc. simpl. destruct (PyStr.rstrip s); rewrite ?Hc; eauto.
Qed.

(** [strip] removes whitespace, from both ends, and all of it. *)
Lemma strip_spec s :
  exists pre post,
    s = pre +:+ PyStr.strip s +:+ post
    /\ all_space pre = true /\ all_space post = true
    /\ (forall c t, PyStr.strip s = String c t -> PyStr.is_space c = false)
    /\ (forall t c, PyStr.strip s = t +:+ String c EmptyString ->
                    PyStr.is_space c = false).
Proof.
  unfold PyStr.strip.
  destruct (lstrip_spec s) as (pre & Heq & Hpre & Hfirst).
  destruct (rstrip_spec (PyStr.lstrip s)) as (post & Heq' & Hpost & Hlast).
  exists pre, post. split; [by rewrite <- Heq'|].
  split; [done|]. split; [done|]. split; [|done].
  intros c t Hs. destruct (PyStr.lstrip s) as [|d u] eqn:Hl; [done|].
  destruct (rstrip_first d u (Hfirst d u eq_refl)) as [t' Ht'].
  rewrite Ht' in Hs. injection Hs as <- _. by apply (Hfirst d u).
Qed.

Lemma strip_trims raw : trims_to raw (PyStr.strip raw).
Proof.
  destruct (strip_spec raw) as (pre & post & Heq & Hpre & Hpost & Hf & Hl).
  exists pre, post. done.
Qed.

Lemma lstrip_spaces pre s :
  all_space pre = true -> PyStr.lstrip (pre +:+ s) = PyStr.lstrip s.
Proof.
  induction pre as [|c pre IH]; [done|].
  simpl. intros [Hc Hp]%andb_prop. rewrite Hc. auto.
Qed.

Lemma rstrip_spaces post :
  all_space post = true -> PyStr.rstrip post = EmptyString.
Proof.
  induction post as [|c post IH]; [done|].
  simpl. intros [Hc Hp]%andb_prop. by rewrite (IH Hp), Hc.
Qed.

Lemma rstrip_append_spaces s post :
  all_space post = true -> PyStr.rstrip (s +:+ post) = PyStr.rstrip s.
Proof.
  intros Hp. induction s as [|c s IH].
  - rewrite PyStrFacts.append_empty. by apply rstrip_spaces.
  - rewrite PyStrFacts.append_cons. simpl. by rewrite IH.
Qed.

Lemma rstrip_trimmed s :
  (forall t c, s = t +:+ String c EmptyString -> PyStr.is_space c = false) ->
  PyStr.rstrip s = s.
Proof.
  induction s as [|c s IH]; [done|]. intros Hl. simpl.
  rewrite IH.
  - destruct s as [|d s]; [|done].
    by rewrite (Hl EmptyString c).
  - intros t d ->. apply (Hl (String c t) d). done.
Qed.

(** The trimmed form is the only one. *)
Lemma strip_unique raw s : trims_to raw s -> PyStr.strip raw = s.
Proof.
  intros (pre & post & -> & Hpre & Hpost & Hf & Hl).
  unfold PyStr.strip. rewrite lstrip_spaces by done.
  destruct s as [|c t].
  - rewrite PyStrFacts.append_empty.
    destruct (lstrip_spec post) as (pre' & Heq & _ & _).
    destruct (rstrip_spec (PyStr.lstrip post)) as (post' & Heq' & _ & Hlast).
    assert (Hall : forall u v, all_space (u +:+ v) = true -> all_space v = true).
    { induction u as [|a u IHu]; intros v; [done|].
      rewrite PyStrFacts.append_cons. simpl. intros [_ H]%andb_prop. auto. }
    rewrite Heq in Hpost. apply Hall in Hpost.
    by apply rstrip_spaces.
  - rewrite PyStrFacts.append_cons. simpl.
    rewrite (Hf c t eq_refl).
    change (String c (t +:+ post)) with (String c t +:+ post).
    rewrite rstrip_append_spaces by done. by apply rstrip_trimmed.
Qed.

(** C8: [parse_headers] never raises.  Its mapping is the one built from
    the well-formed entries alone and is the mapping it builds when the
    malformed entries are left out of the list.  Every well-formed entry
    is cut at its first colon, and only there; its name and its value are
    the two parts without the whitespace around them, and none of it
    left at either end; the name is in the mapping.  Every name and value
    of the mapping come from a well-formed entry in this way.  One error
    record is logged for each entry without a colon, in their order, and
    nothing else is logged. *)
Theorem parse_headers_keeps_well_formed (header_list : list string)
    (st : Frame) :
  let good := List.filter well_formed header_list in
  let bad := List.filter malformed header_list in
  parse_headers header_list st =
    (Ok (header_map ∅ good), with_log st (map invalid_header_record bad))
  /\ parse_headers good st = (Ok (header_map ∅ good), st)
  /\ logged (snd (parse_headers header_list st)) =
       logged st ++
       map (fun h => mkLog ERROR ("Invalid header format: " +:+ h +:+
                                  ".  Expected 'Key: Value'")) bad
  /\ (forall h, In h header_list -> well_formed h = true ->
        h = before_colon h +:+ String ":" (after_colon h)
        /\ PyStr.has_char ":" (before_colon h) = false
        /\ is_Some (header_map ∅ good !! PyStr.strip (before_colon h))
        /\ trims_to (before_colon h) (PyStr.strip (before_colon h))
        /\ trims_to (after_colon h) (PyStr.strip (after_colon h)))
  /\ (forall k v, header_map ∅ good !! k = Some v ->
        exists h, In h header_list /\ well_formed h = true
                  /\ k = PyStr.strip (before_colon h)
                  /\ v = PyStr.strip (after_colon h)
                  /\ trims_to (before_colon h) k
                  /\ trims_to (after_colon h) v)
  /\ (forall h name value,
        In h header_list -> well_formed h = true ->
        trims_to (before_colon h) name -> trims_to (after_colon h) value ->
        (forall h', In h' header_list -> well_formed h' = true ->
                    trims_to (before_colon h') name -> h' = h) ->
        header_map ∅ good !! name = Some value).
Proof.
  intros good bad. unfold parse_headers.
  rewrite !parse_headers_from_spec. subst good bad.
  rewrite filter_well_formed_twice, filter_malformed_of_well_formed.
  simpl. rewrite with_log_nil.
  split; [done|]. split; [done|]. split; [done|]. split; [|split].
  - intros h Hin Hwf. destruct (first_colon h Hwf) as [Heq Hno].
    split; [done|]. split; [done|]. split.
    + apply (header_map_present _ ∅ h), filter_In. done.
    + split; apply strip_trims.
  - intros k v [H|(h & Hin & -> & ->)]%header_map_origin.
    + by rewrite lookup_empty in H.
    + apply filter_In in Hin as [Hin Hwf]. exists h.
      repeat split; try done; apply strip_trims.
  - intros h name value Hin Hwf Hname%strip_unique Hvalue%strip_unique Honly.
    assert (Hg : In h (List.filter well_formed header_list))
      by (by apply filter_In).
    destruct (header_map_present _ ∅ h Hg) as [v Hv].
    fold (header_key h) in Hname. rewrite <- Hname, Hv. f_equal.
    apply header_map_origin in Hv as [Hv|(h' & Hin' & Hk & ->)].
    + by rewrite lookup_empty in Hv.
    + apply filter_In in Hin' as [Hin' Hwf'].
      rewrite (Honly h' Hin' Hwf'); [done|].
      rewrite <- Hname, Hk. apply strip_trims.
Qed.

Lemma parse_headers_keeps_well_formed_witness :
  parse_headers
    ["  X-Token :  abc  "; "Authorization Bearer xyz"; "Accept:text/plain "]
    start =
  (Ok (<["Accept" := "text/plain"]> (<["X-Token" := "abc"]> ∅)),
   mkFrame
     [mkLog ERROR
        "Invalid header format: Authorization Bearer xyz.  Expected 'Key: Value'"]
     [] [] None).
Proof.
  destruct (parse_headers_keeps_well_formed
              ["  X-Token :  abc  "; "Authorization Bearer xyz";
               "Accept:text/plain "] start) as [H _].
  rewrite H. reflexivity.
Defined.

(** C9: among the well-formed entries that trim to the same name, the
    last one in argument order gives the value; whatever earlier entries
    gave for that name is gone. *)
Theorem parse_headers_last_value_wins (earlier later : list string)
    (h : string) (st : Frame) :
  well_formed h = true ->
  (forall h', In h' later -> well_formed h' = true ->
              header_key h' <> header_key h) ->
  exists headers,
    fst (parse_headers (earlier ++ h :: later) st) = Ok headers
    /\ headers !! header_key h = Some (header_value h).
Proof.
  intros Hwf Hlast. unfold parse_headers.
  rewrite parse_headers_from_spec. eexists. split; [reflexivity|].
  rewrite List.filter_app. simpl. rewrite Hwf.
  apply header_map_last.
  intros h' [Hin Hh']%filter_In. by apply Hlast.
Qed.

Lemma parse_headers_last_value_wins_witness :
  exists headers,
    fst (parse_headers ["X-Token: first"; "X-Token : second"; "oops"] start)
      = Ok headers
    /\ headers !! "X-Token" = Some "second".
Proof.
  apply (parse_headers_last_value_wins ["X-Token: first"] ["oops"]
           "X-Token : second" start).
  - reflexivity.
  - intros h' [<-|[]]. discriminate.
Defined.

(** ** [check_introspection] as seen by its caller *)

Lemma conclude_ok_returns r st :
  (forall e, json r = Raise e -> is_Exception e = true) ->
  exists b, fst (conclude (Ok r) st) = Ok b.
Proof.
  intros Hj. destruct (error_status r) eqn:Hs.
  - destruct (conclude_error_status st r Hs) as (e & _ & ->). by eexists.
  - destruct (PyStr.contains "application/json" (content_type r)) eqn:Hct.
    + destruct (json r) as [v|e] eqn:Hv.
      * rewrite (conclude_parsed _ _ v) by done. by eexists.
      * rewrite (conclude_unparsed _ _ e), (Hj e) by done. by eexists.
    + rewrite conclude_not_json by done. by eexists.
Qed.

Lemma conclude_raised_false e st :
  is_Exception e = true ->
  (is_JSONDecodeError e = true -> is_RequestException e = true) ->
  fst (conclude (Raise e) st) = Ok false.
Proof.
  intros He Hd. rewrite conclude_raised, He.
  destruct (is_RequestException e); [done|].
  destruct (is_JSONDecodeError e); [|done]. by specialize (Hd eq_refl).
Qed.

(** On an ordinary network [check_introspection] returns a boolean,
    [False] when a request fails, and raises nothing. *)
Lemma check_introspection_returns w url headers use_post st :
  ordinary w ->
  (exists b, fst (check_introspection w url headers use_post st) = Ok b)
  /\ (forall e, w (post_request url headers) = Raise e ->
        fst (check_introspection w url headers use_post st) = Ok false)
  /\ (forall r0 e, use_post = false ->
        w (post_request url headers) = Ok r0 -> is_html r0 = true ->
        w (get_request url headers) = Raise e ->
        fst (check_introspection w url headers use_post st) = Ok false).
Proof.
  intros [Hfail Hbody].
  assert (Hraise : forall e st',
             w (post_request url headers) = Raise e ->
             fst (conclude (Raise e) st') = Ok false).
  { intros e st' [He Hd]%Hfail. by apply conclude_raised_false. }
  assert (Hok : forall req r st',
             w req = Ok r -> exists b, fst (conclude (Ok r) st') = Ok b).
  { intros req r st' Hr. apply conclude_ok_returns. intros e. by apply (Hbody req). }
  split; [|split].
  - destruct use_post.
    + rewrite check_forced.
      destruct (w (post_request url headers)) as [r|e] eqn:Hp.
      * by apply (Hok (post_request url headers)).
      * exists false. by apply Hraise.
    + destruct (w (post_request url headers)) as [r0|e] eqn:Hp.
      * destruct (is_html r0) eqn:Hh.
        -- rewrite (check_fallback _ _ _ _ r0) by done.
           destruct (w (get_request url headers)) as [r|e] eqn:Hg.
           ++ by apply (Hok (get_request url headers)).
           ++ exists false. rewrite conclude_raised.
              destruct (Hfail _ _ Hg) as [-> _]. simpl.
              destruct (is_RequestException e); [done|].
              by destruct (is_JSONDecodeError e).
        -- rewrite (check_direct _ _ _ _ r0) by done.
           by apply (Hok (post_request url headers)).
      * rewrite (check_post_failed _ _ _ _ e) by done.
        exists false. by apply Hraise.
  - intros e Hp. destruct use_post.
    + rewrite check_forced, Hp. by apply Hraise.
    + rewrite (check_post_failed _ _ _ _ e) by done. by apply Hraise.
  - intros r0 e -> Hp Hh Hg.
    rewrite (check_fallback _ _ _ _ r0), Hg, conclude_raised by done.
    destruct (Hfail _ _ Hg) as [-> _]. simpl.
    destruct (is_RequestException e); [done|].
    by destruct (is_JSONDecodeError e).
Qed.

(** [check_introspection] prints nothing, and what it sends goes to the
    URL it is given: the POST, and the GET after it if any. *)
Lemma check_introspection_effects w url headers use_post st :
  printed (snd (check_introspection w url headers use_post st)) = printed st
  /\ exists more,
       sent (snd (check_introspection w url headers use_post st)) =
       sent st ++ post_request url headers :: more
       /\ forall req, In req more -> req = get_request url headers.
Proof.
  assert (Hq : forall o f,
             printed (snd (conclude o f)) = printed f
             /\ sent (snd (conclude o f)) = sent f).
  { intros o f. destruct (conclude_quiet o f). done. }
  destruct use_post.
  - rewrite check_forced. destruct (Hq (w (post_request url headers))
      (mkFrame (logged st) (sent st ++ [post_request url headers])
         (printed st) None)) as [-> ->].
    split; [done|]. exists []. done.
  - destruct (w (post_request url headers)) as [r0|e] eqn:Hp.
    + destruct (is_html r0) eqn:Hh.
      * rewrite (check_fallback _ _ _ _ r0) by done.
        match goal with |- context [conclude ?o ?f] =>
          destruct (Hq o f) as [-> ->] end.
        split; [done|]. exists [get_request url headers].
        split; [done|]. by intros req [<-|[]].
      * rewrite (check_direct _ _ _ _ r0) by done.
        match goal with |- context [conclude ?o ?f] =>
          destruct (Hq o f) as [-> ->] end.
        split; [done|]. exists []. done.
    + rewrite (check_post_failed _ _ _ _ e) by done.
      match goal with |- context [conclude ?o ?f] =>
        destruct (Hq o f) as [-> ->] end.
      split; [done|]. exists []. done.
Qed.

(** ** [main] *)

Lemma effective_url_without_scheme url :
  has_scheme url = false -> effective_url url = "https://" +:+ url.
Proof. unfold effective_url. by intros ->. Qed.

Lemma effective_url_with_scheme url :
  has_scheme url = true -> effective_url url = url.
Proof. unfold effective_url. by intros ->. Qed.

Lemma effective_url_has_scheme url : has_scheme (effective_url url) = true.
Proof.
  unfold effective_url. destruct (has_scheme url) eqn:H; [done|].
  unfold has_scheme. apply orb_true_intro. right.
  apply PyStrFacts.startswith_app.
Qed.

(** The prefix is put once: a second pass changes nothing. *)
Lemma effective_url_once url :
  effective_url (effective_url url) = effective_url url.
Proof. apply effective_url_with_scheme, effective_url_has_scheme. Qed.

(** X15: lines 190-209 on their own do what is expected of [main]: with a
    non-empty URL and an ordinary network they end normally, print one of
    the two verdict lines and nothing else, and send every request to the
    URL with [https://] put before it when it has no scheme. *)
Lemma run_prints_one_verdict w args st :
  ordinary w ->
  ns_url args <> "" ->
  fst (run w args st) = Ok tt
  /\ (exists enabled, printed (snd (run w args st)) =
                      printed st ++ [verdict_line enabled])
  /\ exists headers more,
       fst (parse_headers (ns_header args) st) = Ok headers
       /\ sent (snd (run w args st)) =
          sent st ++ post_request (effective_url (ns_url args)) headers :: more
       /\ forall req, In req more ->
            req = get_request (effective_url (ns_url args)) headers.
Proof.
  intros Hw Hurl.
  apply String.eqb_neq in Hurl.
  unfold run, call, mbind, py_bind, parse_headers.
  rewrite !parse_headers_from_spec, Hurl.
  set (headers := header_map ∅ (List.filter well_formed (ns_header args))).
  unfold mret, py_ret.
  set (st1 := with_log _ _).
  assert (Hgo : forall notes,
    let st2 := with_log st1 notes in
    let probe := check_introspection w (effective_url (ns_url args)) headers
                   (ns_post args) st2 in
    printed st2 = printed st /\ sent st2 = sent st
    /\ exists enabled more,
         fst probe = Ok enabled
         /\ printed (snd probe) = printed st
         /\ sent (snd probe) =
            sent st ++ post_request (effective_url (ns_url args)) headers :: more
         /\ forall req, In req more ->
              req = get_request (effective_url (ns_url args)) headers).
  { intros notes st2 probe. split; [done|]. split; [done|].
    destruct (check_introspection_returns w (effective_url (ns_url args))
                headers (ns_post args) st2 Hw) as [[enabled Hb] _].
    destruct (check_introspection_effects w (effective_url (ns_url args))
                headers (ns_post args) st2) as (Hp & more & Hs & Hm).
    exists enabled, more. done. }
  unfold effective_url in *.
  destruct (has_scheme (ns_url args)); simpl.
  - destruct (Hgo [mkLog INFO ("Checking GraphQL introspection at: " +:+ ns_url args)])
      as (_ & _ & enabled & more & Hb & Hp & Hs & Hm).
    unfold with_log in Hb, Hp, Hs. simpl in Hb, Hp, Hs.
    unfold log. simpl.
    destruct (check_introspection _ _ _ _ _) as [[b|e] st5]; [|done].
    simpl in *. injection Hb as ->.
    split; [by destruct enabled|]. split.
    + exists enabled. destruct enabled; simpl; by rewrite Hp.
    + exists headers, more. destruct enabled; simpl; done.
  - destruct (Hgo [mkLog WARNING "URL does not start with http:// or https://.  Assuming https://";
                   mkLog INFO ("Checking GraphQL introspection at: " +:+ "https://" +:+ ns_url args)])
      as (_ & _ & enabled & more & Hb & Hp & Hs & Hm).
    unfold with_log in Hb, Hp, Hs. simpl in Hb, Hp, Hs.
    unfold log. simpl. rewrite <- app_assoc. simpl.
    destruct (check_introspection _ _ _ _ _) as [[b|e] st5]; [|done].
    simpl in *. injection Hb as ->.
    split; [by destruct enabled|]. split.
    + exists enabled. destruct enabled; simpl; by rewrite Hp.
    + exists headers, more. destruct enabled; simpl; done.
Qed.

(** Line 188 raises on every parsed command line, before anything is
    logged, sent or printed: the value of [setup_argparse()] is the
    [Namespace], which has no [parse_args]. *)
Lemma main_always_raises args w st :
  main (Ok args) w st =
  (Raise (mkExn AttributeError
            "'Namespace' object has no attribute 'parse_args'"), st).
Proof. reflexivity. Qed.

(** C2, at a failing input: [check_introspection] itself returns a boolean
    on every ordinary network ([check_introspection_returns]), but the
    program prints no verdict.  On the command line
    [prog https://example.com/graphql], with a server that answers with
    the schema, [main] raises [AttributeError] at line 188 and prints
    nothing, where lines 190-209 would have printed the ENABLED line. *)
Theorem main_prints_no_verdict :
  ns_url cli_with_scheme <> ""
  /\ fst (main (Ok cli_with_scheme) (answering schema_answer) start) =
     Raise (mkExn AttributeError
              "'Namespace' object has no attribute 'parse_args'")
  /\ printed (snd (main (Ok cli_with_scheme) (answering schema_answer) start))
     = []
  /\ printed (snd (run (answering schema_answer) cli_with_scheme start))
     = ["GraphQL introspection is ENABLED."].
Proof. repeat split. discriminate. Qed.

(** C7, at a failing input: on the command line [prog example.com/graphql]
    [main] raises at line 188, before lines 200-202: no warning is logged
    and no request is sent, to [https://example.com/graphql] or anywhere;
    lines 190-209 would have sent the POST there. *)
Theorem main_sends_no_request :
  has_scheme (ns_url cli_without_scheme) = false
  /\ fst (main (Ok cli_without_scheme) (answering schema_answer) start) =
     Raise (mkExn AttributeError
              "'Namespace' object has no attribute 'parse_args'")
  /\ sent (snd (main (Ok cli_without_scheme) (answering schema_answer) start))
     = []
  /\ logged (snd (main (Ok cli_without_scheme) (answering schema_answer) start))
     = []
  /\ map req_url
       (sent (snd (run (answering schema_answer) cli_without_scheme start)))
     = ["https://example.com/graphql"].
Proof. repeat split. Qed.

(** ** More on [check_introspection] *)

(** X1: a final response whose status is not 4xx or 5xx and whose
    lower-cased [Content-Type] does not contain [application/json] gets
    [False] and a warning that names the content type; [.json()] is not
    called, so what it would do does not matter. *)
Theorem other_content_type_yields_false (w : World) (url : string)
    (headers : gmap string string) (use_post : bool) (st : Frame)
    (r : Response) :
  final_response w url headers use_post r ->
  error_status r = false ->
  PyStr.contains "application/json" (content_type r) = false ->
  let run := check_introspection w url headers use_post st in
  fst run = Ok false
  /\ exists earlier,
       logged (snd run) =
       earlier ++
       [mkLog WARNING
          ("Unexpected content type: " +:+ content_type r +:+
           ".  Expected application/json. Please ensure target endpoint is a graphql endpoint")].
Proof.
  intros Hfin Hst Hct run. subst run.
  destruct (check_final _ _ _ _ _ st Hfin) as [st' ->].
  rewrite conclude_not_json by done.
  split; [done|]. by exists (logged st').
Qed.

Lemma other_content_type_yields_false_witness :
  fst (check_introspection (answering plain_answer) endpoint ∅ true start)
  = Ok false.
Proof.
  apply (other_content_type_yields_false (answering plain_answer) endpoint ∅
           true start plain_answer).
  - by apply final_forced.
  - reflexivity.
  - reflexivity.
Defined.

Lemma answering_ordinary r :
  (forall e, json r = Raise e -> is_Exception e = true) ->
  ordinary (answering r).
Proof.
  intros Hj. split.
  - intros req e. unfold answering. discriminate.
  - intros req r' e. unfold answering. intros [= <-]. apply Hj.
Qed.

(** X2: on a network whose failed requests raise an [Exception] that is
    not a bare [json.JSONDecodeError], and whose bodies raise an
    [Exception] when they do not parse, [check_introspection] returns a
    boolean; it is [False] when the POST raises, and when the GET
    raises. *)
Theorem check_introspection_returns_boolean (w : World) (url : string)
    (headers : gmap string string) (use_post : bool) (st : Frame) :
  ordinary w ->
  let run := check_introspection w url headers use_post st in
  (exists b, fst run = Ok b)
  /\ (forall e, w (post_request url headers) = Raise e -> fst run = Ok false)
  /\ (forall e, fallback_taken w url headers use_post = true ->
        w (get_request url headers) = Raise e -> fst run = Ok false).
Proof.
  intros Hw run. subst run.
  destruct (check_introspection_returns w url headers use_post st Hw)
    as (Hb & Hpost & Hget).
  split; [done|]. split; [done|].
  intros e Hf Hg. unfold fallback_taken in Hf.
  destruct use_post; [done|]. simpl in Hf.
  destruct (w (post_request url headers)) as [r0|] eqn:Hp; [|done].
  by apply (Hget r0 e).
Qed.

Lemma check_introspection_returns_boolean_witness :
  exists b,
    fst (check_introspection (answering html_page) endpoint ∅ false start)
    = Ok b.
Proof.
  apply (check_introspection_returns_boolean (answering html_page) endpoint ∅
           false start).
  apply answering_ordinary. intros e [= <-]. reflexivity.
Defined.

Lemma conclude_ok_raises r st e' :
  fst (conclude (Ok r) st) = Raise e' ->
  is_Exception e' = false /\ json r = Raise e'.
Proof.
  destruct (error_status r) eqn:Hs.
  - by destruct (conclude_error_status st r Hs) as (e & _ & ->).
  - destruct (PyStr.contains "application/json" (content_type r)) eqn:Hct.
    + destruct (json r) as [v|e] eqn:Hv.
      * by rewrite (conclude_parsed _ _ v).
      * rewrite (conclude_unparsed _ _ e) by done.
        destruct (is_Exception e) eqn:He; [done|]. by intros [= <-].
    + by rewrite conclude_not_json.
Qed.

(** X3: what [check_introspection] can raise.  An exception leaves it
    only if it is not an [Exception] (Ctrl-C, say) and was raised by a
    request or by [.json()]; or as the [UnboundLocalError] of line 164,
    when the POST itself raised a [json.JSONDecodeError] that is not a
    [RequestException], so that [response] was never bound. *)
Theorem escaping_exceptions (w : World) (url : string)
    (headers : gmap string string) (use_post : bool) (st : Frame)
    (e' : Exn) :
  fst (check_introspection w url headers use_post st) = Raise e' ->
  (is_Exception e' = false
   /\ ((exists req, w req = Raise e')
       \/ exists req r, w req = Ok r /\ json r = Raise e'))
  \/ (exn_class e' = UnboundLocalError
      /\ exists e, w (post_request url headers) = Raise e
                   /\ is_RequestException e = false
                   /\ is_JSONDecodeError e = true).
Proof.
  assert (Hok : forall req r st',
             w req = Ok r -> fst (conclude (Ok r) st') = Raise e' ->
             is_Exception e' = false
             /\ ((exists req, w req = Raise e')
                 \/ exists req r, w req = Ok r /\ json r = Raise e')).
  { intros req r st' Hr [He Hj]%conclude_ok_raises. split; [done|].
    right. by exists req, r. }
  assert (Hfirst : forall e st',
             w (post_request url headers) = Raise e ->
             var_response st' = None ->
             fst (conclude (Raise e) st') = Raise e' ->
             (is_Exception e' = false
              /\ ((exists req, w req = Raise e')
                  \/ exists req r, w req = Ok r /\ json r = Raise e'))
             \/ (exn_class e' = UnboundLocalError
                 /\ exists e, w (post_request url headers) = Raise e
                              /\ is_RequestException e = false
                              /\ is_JSONDecodeError e = true)).
  { intros e st' Hp Hvar. rewrite conclude_raised, Hvar.
    destruct (is_Exception e) eqn:He.
    - destruct (is_RequestException e) eqn:Hre; [done|].
      destruct (is_JSONDecodeError e) eqn:Hd; [|done].
      intros [= <-]. right. split; [done|]. by exists e.
    - intros [= <-]. left. split; [done|]. left. by eexists. }
  destruct use_post.
  - rewrite check_forced.
    destruct (w (post_request url headers)) as [r|e] eqn:Hp.
    + intros H. left. apply (Hok _ _ _ Hp H).
    + by apply Hfirst.
  - destruct (w (post_request url headers)) as [r0|e] eqn:Hp.
    + destruct (is_html r0) eqn:Hh.
      * rewrite (check_fallback _ _ _ _ r0) by done.
        destruct (w (get_request url headers)) as [r|e] eqn:Hg.
        -- intros H. left. apply (Hok _ _ _ Hg H).
        -- rewrite conclude_raised. simpl.
           destruct (is_Exception e) eqn:He.
           ++ destruct (is_RequestException e); [done|].
              by destruct (is_JSONDecodeError e).
           ++ intros [= <-]. left. split; [done|]. left. by eexists.
      * rewrite (check_direct _ _ _ _ r0) by done.
        intros H. left. apply (Hok _ _ _ Hp H).
    + rewrite (check_post_failed _ _ _ _ e) by done. by apply Hfirst.
Qed.

Lemma escaping_exceptions_witness :
  (is_Exception (mkExn KeyboardInterrupt "") = false
   /\ ((exists req, interrupted req = Raise (mkExn KeyboardInterrupt ""))
       \/ exists req r, interrupted req = Ok r
                        /\ json r = Raise (mkExn KeyboardInterrupt "")))
  \/ (exn_class (mkExn KeyboardInterrupt "") = UnboundLocalError
      /\ exists e, interrupted (post_request endpoint ∅) = Raise e
                   /\ is_RequestException e = false
                   /\ is_JSONDecodeError e = true).
Proof.
  apply (escaping_exceptions interrupted endpoint ∅ false start).
  reflexivity.
Defined.

(** X4: the requests of a run are the POST, followed by the GET exactly
    when [use_post] is off and the POST is answered with HTML: never more
    than two, never a GET first, and both to the URL and with the headers
    given. *)
Theorem requests_of_a_run (w : World) (url : string)
    (headers : gmap string string) (use_post : bool) (st : Frame) :
  sent (snd (check_introspection w url headers use_post st)) =
  sent st ++
  post_request url headers ::
  (if fallback_taken w url headers use_post
   then [get_request url headers] else []).
Proof.
  assert (Hq : forall o f, sent (snd (conclude o f)) = sent f).
  { intros o f. by destruct (conclude_quiet o f). }
  unfold fallback_taken. destruct use_post; simpl.
  - by rewrite check_forced, Hq.
  - destruct (w (post_request url headers)) as [r0|e] eqn:Hp.
    + destruct (is_html r0) eqn:Hh.
      * by rewrite (check_fallback _ _ _ _ r0), Hq.
      * by rewrite (check_direct _ _ _ _ r0), Hq.
    + by rewrite (check_post_failed _ _ _ _ e), Hq.
Qed.

(** X5: [use_post] matters only when the POST is answered with HTML: in
    every other run, the one with the flag and the one without do the
    same, verdict, log and requests. *)
Theorem use_post_matters_for_html_only (w : World) (url : string)
    (headers : gmap string string) (st : Frame) :
  fallback_taken w url headers false = false ->
  check_introspection w url headers false st =
  check_introspection w url headers true st.
Proof.
  unfold fallback_taken. simpl. intros Hf. rewrite check_forced.
  destruct (w (post_request url headers)) as [r0|e] eqn:Hp.
  - by apply check_direct.
  - by apply check_post_failed.
Qed.

Lemma use_post_matters_for_html_only_witness :
  check_introspection (answering schema_answer) endpoint ∅ false start =
  check_introspection (answering schema_answer) endpoint ∅ true start.
Proof.
  apply (use_post_matters_for_html_only (answering schema_answer) endpoint ∅
           start).
  reflexivity.
Defined.

(** The test of line 150, case by case. *)
Lemma has_schema_true v :
  has_schema v = Ok true <-> passes_schema_test v = true.
Proof.
  unfold has_schema, passes_schema_test.
  destruct v as [| | | s | items | members]; simpl; try done.
  - by destruct (PyStr.contains "data" s).
  - by destruct (existsb _ items).
  - destruct (member "data" members) as [inner|]; [|done].
    destruct inner; simpl; try done.
    + split; [by intros [= ->]|by intros ->].
    + split; [by intros [= ->]|by intros ->].
    + split; [by intros [= ->]|by intros ->].
Qed.

Lemma has_schema_raise v :
  (exists e, has_schema v = Raise e) <-> schema_test_raises v = true.
Proof.
  unfold has_schema, schema_test_raises.
  destruct v as [| | | s | items | members]; simpl;
    try (split; [done|by eexists]).
  - destruct (PyStr.contains "data" s); split; try done; try by eexists.
    by intros [? ?].
  - destruct (existsb _ items); split; try done; try by eexists.
    by intros [? ?].
  - destruct (member "data" members) as [inner|];
      [|split; [by intros [? ?]|done]].
    destruct inner; simpl; split; try done; try by eexists.
    + by intros [? ?].
    + by intros [? ?].
    + by intros [? ?].
Qed.

Lemma has_schema_raises_type_error v e :
  has_schema v = Raise e -> exn_class e = TypeError.
Proof.
  unfold has_schema.
  destruct v as [| | | s | items | members]; simpl;
    try (intros [= <-]; done).
  - destruct (PyStr.contains "data" s); [|done]. intros [= <-]; done.
  - destruct (existsb _ items); [|done]. intros [= <-]; done.
  - destruct (member "data" members) as [inner|]; [|done].
    destruct inner; simpl; try done; intros [= <-]; done.
Qed.

(** The frame after a parsed body has been judged. *)
Lemma conclude_parsed_frame st r v :
  error_status r = false ->
  PyStr.contains "application/json" (content_type r) = true ->
  json r = Ok v ->
  conclude (Ok r) st =
  match has_schema v with
  | Ok true => (Ok true, with_log (bound st r) [enabled_record])
  | Ok false =>
      (Ok false,
       with_log (bound st r)
         [mkLog INFO "GraphQL introspection is not enabled or schema is restricted."])
  | Raise e => (Ok false, with_log (bound st r) [unexpected_error e])
  end.
Proof.
  intros H Hct Hv.
  unfold conclude, try_except, classify, raise_for_status, lift, mbind,
    py_bind, assign_response, read_response. simpl.
  fold (error_status r). rewrite H. unfold mret, py_ret. simpl.
  rewrite Hct, Hv. simpl.
  destruct (has_schema v) as [[]|e] eqn:Hs; simpl; try reflexivity.
  destruct (has_schema_raises _ _ Hs) as (-> & Hr & Hj).
  unfold handlers. rewrite Hr, Hj. reflexivity.
Qed.

Lemma conclude_closing_record o st b :
  fst (conclude o st) = Ok b ->
  exists record,
    logged (snd (conclude o st)) = logged st ++ [record]
    /\ (b = true <-> record = enabled_record).
Proof.
  destruct o as [r|e].
  - destruct (error_status r) eqn:Hs.
    + destruct (conclude_error_status st r Hs) as (e & _ & ->).
      intros [= <-]. eexists. split; [done|]. done.
    + destruct (PyStr.contains "application/json" (content_type r)) eqn:Hct.
      * destruct (json r) as [v|e] eqn:Hv.
        -- rewrite (conclude_parsed_frame _ _ v) by done.
           destruct (has_schema v) as [[]|e]; intros [= <-];
             eexists; (split; [done|]); done.
        -- rewrite (conclude_unparsed _ _ e) by done.
           destruct (is_Exception e); [|done]. intros [= <-].
           eexists. split; [done|]. split; [done|].
           destruct (is_RequestException e); [done|].
           by destruct (is_JSONDecodeError e).
      * rewrite conclude_not_json by done. intros [= <-].
        eexists. split; [done|]. done.
  - unfold conclude, try_except, lift, mbind, py_bind. simpl.
    destruct (is_Exception e); [|done].
    unfold handlers.
    destruct (is_RequestException e).
    { intros [= <-]. eexists. split; [done|]. done. }
    destruct (is_JSONDecodeError e).
    + unfold read_response, mbind, py_bind.
      destruct (var_response st); [|done].
      intros [= <-]. eexists. split; [done|]. done.
    + intros [= <-]. eexists. split; [done|]. done.
Qed.

(** X6: a run that returns has logged one closing record after the log
    it was given, preceded only by the notice of the fallback when the
    GET was sent, and it returns [True] exactly when that record is
    "GraphQL introspection is enabled." *)
Theorem verdict_matches_closing_record (w : World) (url : string)
    (headers : gmap string string) (use_post : bool) (st : Frame)
    (b : bool) :
  fst (check_introspection w url headers use_post st) = Ok b ->
  exists record,
    logged (snd (check_introspection w url headers use_post st)) =
      logged st ++
      (if fallback_taken w url headers use_post
       then [mkLog INFO "Received HTML response, attempting GET request with parameters."]
       else []) ++ [record]
    /\ (b = true <->
        record = mkLog INFO "GraphQL introspection is enabled.").
Proof.
  unfold fallback_taken. destruct use_post; simpl.
  - rewrite check_forced. intros (record & -> & Hb)%conclude_closing_record.
    by exists record.
  - destruct (w (post_request url headers)) as [r0|e] eqn:Hp.
    + destruct (is_html r0) eqn:Hh.
      * rewrite (check_fallback _ _ _ _ r0) by done.
        intros (record & -> & Hb)%conclude_closing_record.
        exists record. simpl. by rewrite <- app_assoc.
      * rewrite (check_direct _ _ _ _ r0) by done.
        intros (record & -> & Hb)%conclude_closing_record. by exists record.
    + rewrite (check_post_failed _ _ _ _ e) by done.
      intros (record & -> & Hb)%conclude_closing_record. by exists record.
Qed.

Lemma verdict_matches_closing_record_witness :
  exists record,
    logged (snd (check_introspection
                   (answering_get html_page (Ok schema_answer))
                   endpoint ∅ false start)) =
      logged start ++
      (if fallback_taken (answering_get html_page (Ok schema_answer))
            endpoint ∅ false
       then [mkLog INFO "Received HTML response, attempting GET request with parameters."]
       else []) ++ [record]
    /\ (true = true <->
        record = mkLog INFO "GraphQL introspection is enabled.").
Proof.
  apply (verdict_matches_closing_record
           (answering_get html_page (Ok schema_answer)) endpoint ∅ false
           start true).
  reflexivity.
Defined.

Lemma conclude_true o st :
  fst (conclude o st) = Ok true ->
  exists r v, o = Ok r /\ error_status r = false
    /\ PyStr.contains "application/json" (content_type r) = true
    /\ json r = Ok v /\ has_schema v = Ok true.
Proof.
  destruct o as [r|e].
  - destruct (error_status r) eqn:Hs.
    + by destruct (conclude_error_status st r Hs) as (e & _ & ->).
    + destruct (PyStr.contains "application/json" (content_type r)) eqn:Hct.
      * destruct (json r) as [v|e] eqn:Hv.
        -- rewrite (conclude_parsed_frame _ _ v) by done.
           destruct (has_schema v) as [[]|e] eqn:Ht; try done.
           intros _. by exists r, v.
        -- rewrite (conclude_unparsed _ _ e) by done.
           by destruct (is_Exception e).
      * by rewrite conclude_not_json.
  - rewrite conclude_raised.
    destruct (is_Exception e); [|done].
    destruct (is_RequestException e); [done|].
    destruct (is_JSONDecodeError e); [|done].
    by destruct (var_response st).
Qed.

(** X7: [True] is never returned by default.  A run that returns [True]
    had all its requests answered, and its final response has a status
    that is not 4xx or 5xx, a lower-cased [Content-Type] that contains
    [application/json], and a body that parses to an object whose [data]
    is an object with the key [__schema], an array with the element
    ["__schema"], or a string with [__schema] in it. *)
Theorem true_verdict_has_a_cause (w : World) (url : string)
    (headers : gmap string string) (use_post : bool) (st : Frame) :
  fst (check_introspection w url headers use_post st) = Ok true ->
  exists r v,
    final_response w url headers use_post r
    /\ error_status r = false
    /\ PyStr.contains "application/json" (content_type r) = true
    /\ json r = Ok v
    /\ passes_schema_test v = true.
Proof.
  assert (Hc : forall o f,
             fst (conclude o f) = Ok true ->
             exists r v, o = Ok r /\ error_status r = false
               /\ PyStr.contains "application/json" (content_type r) = true
               /\ json r = Ok v /\ passes_schema_test v = true).
  { intros o f (r & v & -> & Hs & Hct & Hv & Ht%has_schema_true)%conclude_true.
    by exists r, v. }
  destruct use_post.
  - rewrite check_forced.
    intros (r & v & Hp & Hrest)%Hc. exists r, v. split; [|done].
    by apply final_forced.
  - destruct (w (post_request url headers)) as [r0|e] eqn:Hp.
    + destruct (is_html r0) eqn:Hh.
      * rewrite (check_fallback _ _ _ _ r0) by done.
        intros (r & v & Hg & Hrest)%Hc. exists r, v. split; [|done].
        by apply (final_fallback _ _ _ r0).
      * rewrite (check_direct _ _ _ _ r0) by done.
        intros (r & v & [= <-] & Hrest)%Hc. exists r0, v. split; [|done].
        by apply final_direct.
    + rewrite (check_post_failed _ _ _ _ e) by done.
      by intros (r & v & [=] & _)%Hc.
Qed.

Lemma true_verdict_has_a_cause_witness :
  exists r v,
    final_response (answering schema_answer) endpoint ∅ true r
    /\ error_status r = false
    /\ PyStr.contains "application/json" (content_type r) = true
    /\ json r = Ok v
    /\ passes_schema_test v = true.
Proof.
  apply (true_verdict_has_a_cause (answering schema_answer) endpoint ∅ true
           start).
  reflexivity.
Defined.

(** X8: when the test of line 150 raises, the run still returns [False],
    through the last [except] clause: the closing record is "An
    unexpected error occurred", with the [TypeError], and not the
    "not enabled" record.  The test raises on [null], a boolean or a
    number at top level or under [data] (so on [{"data": null}]), on a
    string with [data] in it and on an array with the element ["data"]. *)
Theorem raising_test_yields_false (w : World) (url : string)
    (headers : gmap string string) (use_post : bool) (st : Frame)
    (r : Response) (v : Json) :
  final_response w url headers use_post r ->
  error_status r = false ->
  PyStr.contains "application/json" (content_type r) = true ->
  json r = Ok v ->
  schema_test_raises v = true ->
  let run := check_introspection w url headers use_post st in
  fst run = Ok false
  /\ exists e earlier,
       exn_class e = TypeError
       /\ logged (snd run) =
          earlier ++
          [mkLog ERROR ("An unexpected error occurred: " +:+ exn_str e)].
Proof.
  intros Hfin Hst Hct Hv [e He]%has_schema_raise run. subst run.
  destruct (check_final _ _ _ _ _ st Hfin) as [st' ->].
  rewrite (conclude_parsed_frame _ _ v), He by done.
  split; [done|]. exists e, (logged st'). split; [|done].
  by apply (has_schema_raises_type_error v).
Qed.

Lemma raising_test_yields_false_witness :
  fst (check_introspection
         (answering (json_answer 200 (JObj [("data", JNull)])))
         endpoint ∅ true start) = Ok false.
Proof.
  apply (raising_test_yields_false
           (answering (json_answer 200 (JObj [("data", JNull)])))
           endpoint ∅ true start
           (json_answer 200 (JObj [("data", JNull)]))
           (JObj [("data", JNull)])).
  - by apply final_forced.
  - reflexivity.
  - reflexivity.
  - reflexivity.
  - reflexivity.
Defined.

(** ** More on [parse_headers] *)

Lemma header_map_union l : forall acc,
  header_map acc l = header_map ∅ l ∪ acc.
Proof.
  induction l as [|h l IH]; intros acc; simpl.
  - by rewrite (left_id_L ∅ (∪)).
  - rewrite (IH (<[_:=_]> acc)), (IH (<[_:=_]> ∅)).
    rewrite insert_empty, insert_union_singleton_l.
    by rewrite (assoc_L (∪)).
Qed.

Lemma header_map_dom l : forall acc,
  dom (header_map acc l) = list_to_set (map header_key l) ∪ dom acc.
Proof.
  induction l as [|h l IH]; intros acc; simpl.
  - set_solver.
  - rewrite IH, dom_insert_L. set_solver.
Qed.

Lemma header_map_size l : forall acc,
  (size (header_map acc l) <= size acc + length l)%nat.
Proof.
  induction l as [|h l IH]; intros acc; simpl; [lia|].
  etrans; [apply IH|].
  rewrite map_size_insert. destruct (acc !! header_key h); simpl; lia.
Qed.

(** X9: when the well-formed entries have pairwise distinct trimmed
    names, every one of them is in the mapping with its own trimmed
    value, and the mapping has as many entries as there are well-formed
    entries. *)
Theorem distinct_names_all_kept (header_list : list string) (st : Frame) :
  NoDup (map header_key (List.filter well_formed header_list)) ->
  exists headers,
    fst (parse_headers header_list st) = Ok headers
    /\ (forall h, In h header_list -> well_formed h = true ->
          headers !! PyStr.strip (before_colon h)
          = Some (PyStr.strip (after_colon h)))
    /\ size headers = length (List.filter well_formed header_list).
Proof.
  intros Hnd. unfold parse_headers. rewrite parse_headers_from_spec.
  eexists. split; [reflexivity|]. split.
  - intros h Hin Hwf.
    assert (Hg : In h (List.filter well_formed header_list))
      by (by apply filter_In).
    destruct (in_split _ _ Hg) as (l1 & l2 & Heq).
    rewrite Heq in Hnd |- *. apply header_map_last.
    intros h' Hh' Hk.
    rewrite map_app in Hnd. simpl in Hnd.
    apply NoDup_app in Hnd as (_ & _ & Hnd).
    apply NoDup_cons in Hnd as [Hnot _].
    apply Hnot. fold (header_key h). rewrite <- Hk.
    apply list_elem_of_In, in_map, Hh'.
  - rewrite <- size_dom, header_map_dom, dom_empty_L, (right_id_L ∅ (∪)).
    rewrite size_list_to_set by done. by rewrite length_map.
Qed.

Lemma distinct_names_all_kept_witness :
  exists headers,
    fst (parse_headers ["Accept: a"; "no colon"; "X-Token:t"] start)
      = Ok headers
    /\ (forall h, In h ["Accept: a"; "no colon"; "X-Token:t"] ->
          well_formed h = true ->
          headers !! PyStr.strip (before_colon h)
          = Some (PyStr.strip (after_colon h)))
    /\ size headers
       = length (List.filter well_formed
                   ["Accept: a"; "no colon"; "X-Token:t"]).
Proof.
  apply (distinct_names_all_kept ["Accept: a"; "no colon"; "X-Token:t"] start).
  vm_compute. repeat constructor; set_solver.
Defined.

(** X10: the names of the mapping are the trimmed names of the
    well-formed entries, no more and no fewer; the mapping never has more
    entries than the list has well-formed ones. *)
Theorem header_names (header_list : list string) (st : Frame) :
  exists headers,
    fst (parse_headers header_list st) = Ok headers
    /\ dom headers =
       list_to_set (map (fun h => PyStr.strip (before_colon h))
                      (List.filter well_formed header_list))
    /\ (size headers <= length (List.filter well_formed header_list))%nat
    /\ (size headers <= length header_list)%nat.
Proof.
  unfold parse_headers. rewrite parse_headers_from_spec.
  eexists. split; [reflexivity|].
  pose proof (header_map_size (List.filter well_formed header_list) ∅) as Hs.
  rewrite map_size_empty in Hs. simpl in Hs.
  split; [|split; [done|]].
  - rewrite header_map_dom, dom_empty_L. set_solver.
  - etrans; [exact Hs|]. apply List.filter_length_le.
Qed.

(** X11: parsing two lists one after the other.  The mapping of
    [l1 ++ l2] is the mapping of [l2] laid over the mapping of [l1], and
    its error records are those of [l1] followed by those of [l2]. *)
Theorem parse_headers_concatenation (l1 l2 : list string) (st : Frame)
    (m1 m2 : gmap string string) :
  fst (parse_headers l1 st) = Ok m1 ->
  fst (parse_headers l2 st) = Ok m2 ->
  fst (parse_headers (l1 ++ l2) st) = Ok (m2 ∪ m1)
  /\ logged (snd (parse_headers (l1 ++ l2) st)) =
     logged (snd (parse_headers l1 st)) ++
     map invalid_header_record (List.filter malformed l2)
  /\ logged (snd (parse_headers l2 st)) =
     logged st ++ map invalid_header_record (List.filter malformed l2).
Proof.
  unfold parse_headers. rewrite !parse_headers_from_spec. simpl.
  intros [= <-] [= <-].
  rewrite !List.filter_app, header_map_app, map_app, app_assoc.
  split; [|done]. f_equal. apply header_map_union.
Qed.

Lemma parse_headers_concatenation_witness :
  fst (parse_headers (["A: 1"; "B: 2"] ++ ["A: 3"; "oops"]) start) =
  Ok ({["A" := "3"]} ∪ ({["B" := "2"]} ∪ {["A" := "1"]})).
Proof.
  destruct (parse_headers_concatenation ["A: 1"; "B: 2"] ["A: 3"; "oops"]
              start (<["B" := "2"]> (<["A" := "1"]> ∅)) (<["A" := "3"]> ∅)
              eq_refl eq_refl) as [H _].
  rewrite H. reflexivity.
Defined.

Lemma colon_after_name name value :
  PyStr.has_char ":" name = false ->
  well_formed (name +:+ String ":" value) = true
  /\ before_colon (name +:+ String ":" value) = name
  /\ after_colon (name +:+ String ":" value) = value.
Proof.
  unfold well_formed.
  induction name as [|c name IH].
  - intros _. rewrite PyStrFacts.append_empty. done.
  - simpl. intros [Hc Hn]%orb_false_elim. rewrite Hc. simpl.
    destruct (IH Hn) as (-> & -> & ->). done.
Qed.

(** X12: adding the argument [name:value] at the end of the list, for a
    [name] without a colon, sets the trimmed name to the trimmed value in
    the mapping and logs nothing more; colons in the value stay in the
    value. *)
Theorem parse_headers_appended (header_list : list string) (st : Frame)
    (name value : string) (headers : gmap string string) :
  PyStr.has_char ":" name = false ->
  fst (parse_headers header_list st) = Ok headers ->
  parse_headers (header_list ++ [name +:+ String ":" value]) st =
  (Ok (<[PyStr.strip name := PyStr.strip value]> headers),
   snd (parse_headers header_list st)).
Proof.
  intros (Hwf & Hb & Ha)%(colon_after_name name value).
  unfold parse_headers. rewrite !parse_headers_from_spec. simpl.
  intros [= <-].
  rewrite !List.filter_app. simpl. unfold malformed at 2. rewrite Hwf. simpl.
  rewrite header_map_app, app_nil_r. simpl.
  unfold header_key, header_value. by rewrite Hb, Ha.
Qed.

Lemma parse_headers_appended_witness :
  parse_headers ([] ++ ["Authorization" +:+ String ":" " Bearer a:b "]) start =
  (Ok (<["Authorization" := "Bearer a:b"]> ∅), start).
Proof.
  apply (parse_headers_appended [] start "Authorization" " Bearer a:b " ∅).
  - reflexivity.
  - reflexivity.
Defined.

(** ** More on [main] *)

(** The verdict of [check_introspection] does not depend on the frame it
    is called in. *)
Lemma check_frame_irrelevant w url headers use_post st st' :
  fst (check_introspection w url headers use_post st) =
  fst (check_introspection w url headers use_post st').
Proof.
  destruct use_post.
  - rewrite !check_forced.
    destruct (w (post_request url headers)) as [r|e].
    + apply conclude_frame_irrelevant.
    + by rewrite !conclude_raised.
  - destruct (w (post_request url headers)) as [r0|e] eqn:Hp.
    + destruct (is_html r0) eqn:Hh.
      * rewrite !(check_fallback _ _ _ _ r0) by done.
        destruct (w (get_request url headers)) as [r|e].
        -- apply conclude_frame_irrelevant.
        -- by rewrite !conclude_raised.
      * rewrite !(check_direct _ _ _ _ r0) by done.
        apply conclude_frame_irrelevant.
    + rewrite !(check_post_failed _ _ _ _ e) by done.
      by rewrite !conclude_raised.
Qed.

(** Lines 190-209 with a non-empty URL, step by step. *)
Lemma run_steps w args st :
  ns_url args <> "" ->
  run w args st =
  match
    check_introspection w (effective_url (ns_url args))
      (header_map ∅ (List.filter well_formed (ns_header args)))
      (ns_post args)
      (with_log (mkFrame (logged st) (sent st) (printed st) None)
         (map invalid_header_record (List.filter malformed (ns_header args))
          ++ url_records (ns_url args)))
  with
  | (Ok enabled, st') => print (verdict_line enabled) st'
  | (Raise e, st') => (Raise e, st')
  end.
Proof.
  intros Hurl%String.eqb_neq.
  unfold run, call, mbind, py_bind, parse_headers.
  rewrite !parse_headers_from_spec, Hurl.
  unfold mret, py_ret, url_records, effective_url.
  destruct (has_scheme (ns_url args)); simpl.
  - unfold log, with_log. simpl. rewrite <- app_assoc.
    destruct (check_introspection _ _ _ _ _) as [[[]|e] st5]; reflexivity.
  - unfold log, with_log. simpl. rewrite <- !app_assoc. simpl.
    destruct (check_introspection _ _ _ _ _) as [[[]|e] st5]; reflexivity.
Qed.

(** X13: [main] never completes on a command line that parses.  Whatever
    the arguments and the network, it ends with the [AttributeError] of
    line 188, and the script has logged, sent and printed nothing. *)
Theorem main_never_completes (args : Namespace) (w : World) (st : Frame) :
  exists e,
    main (Ok args) w st = (Raise e, st)
    /\ exn_class e = AttributeError
    /\ exn_str e = "'Namespace' object has no attribute 'parse_args'".
Proof. eexists. repeat split. Qed.

(** X14: lines 194-197, the empty URL.  After the headers are parsed and
    their errors logged, "URL is required." is logged and the run ends
    with [SystemExit(1)]; nothing is sent or printed. *)
Theorem run_rejects_empty_url (w : World) (args : Namespace) (st : Frame) :
  ns_url args = "" ->
  fst (run w args st) = Raise (mkExn SystemExit "1")
  /\ logged (snd (run w args st)) =
     logged st ++
     map invalid_header_record (List.filter malformed (ns_header args)) ++
     [mkLog ERROR "URL is required."]
  /\ sent (snd (run w args st)) = sent st
  /\ printed (snd (run w args st)) = printed st.
Proof.
  intros Hurl.
  unfold run, call, mbind, py_bind, parse_headers.
  rewrite !parse_headers_from_spec, Hurl. simpl.
  by rewrite <- app_assoc.
Qed.

Lemma run_rejects_empty_url_witness :
  fst (run (answering schema_answer) cli_empty_url start)
  = Raise (mkExn SystemExit "1").
Proof.
  apply (run_rejects_empty_url (answering schema_answer) cli_empty_url start).
  reflexivity.
Defined.

Lemma run_prints_one_verdict_witness :
  exists enabled,
    printed (snd (run (answering schema_answer) cli_without_scheme start)) =
    printed start ++ [verdict_line enabled].
Proof.
  apply (run_prints_one_verdict (answering schema_answer) cli_without_scheme
           start).
  - apply answering_ordinary. discriminate.
  - discriminate.
Defined.

(** X16: whatever the network does, every request lines 190-209 send goes
    to a URL that starts with [http://] or [https://]: the URL argument
    itself when it starts so, and [https://] followed by it otherwise;
    and carries the parsed headers.  With an empty URL nothing is sent. *)
Theorem run_sends_to_a_url_with_scheme (w : World) (args : Namespace)
    (st : Frame) :
  exists new,
    sent (snd (run w args st)) = sent st ++ new
    /\ (ns_url args = "" -> new = [])
    /\ forall req, In req new ->
         has_scheme (req_url req) = true
         /\ req_url req =
            (if has_scheme (ns_url args) then ns_url args
             else "https://" +:+ ns_url args)
         /\ Ok (req_headers req) = fst (parse_headers (ns_header args) st).
Proof.
  destruct (decide (ns_url args = "")) as [Hurl|Hurl].
  - destruct (run_rejects_empty_url w args st Hurl) as (_ & _ & Hs & _).
    exists []. rewrite Hs, app_nil_r. done.
  - rewrite run_steps by done.
    set (url := effective_url (ns_url args)).
    set (headers := header_map ∅ _).
    set (st2 := with_log _ _).
    pose proof (requests_of_a_run w url headers (ns_post args) st2) as Hs.
    exists (post_request url headers ::
            (if fallback_taken w url headers (ns_post args)
             then [get_request url headers] else [])).
    split; [|split; [done|]].
    + destruct (check_introspection _ _ _ _ _) as [[b|e] st5]; exact Hs.
    + assert (Hreq : forall req, req = post_request url headers
                                 \/ req = get_request url headers ->
                has_scheme (req_url req) = true
                /\ req_url req =
                   (if has_scheme (ns_url args) then ns_url args
                    else "https://" +:+ ns_url args)
                /\ Ok (req_headers req) = fst (parse_headers (ns_header args) st)).
      { intros req Hreq.
        assert (req_url req = url /\ req_headers req = headers) as [-> ->]
          by (by destruct Hreq as [-> | ->]).
        split; [apply effective_url_has_scheme|]. split; [done|].
        unfold parse_headers. by rewrite parse_headers_from_spec. }
      intros req [<-|Hin]; [apply Hreq; by left|].
      destruct (fallback_taken _ _ _ _); [|done].
      destruct Hin as [<-|[]]. apply Hreq; by right.
Qed.

(** X17: the log of lines 190-209 with a non-empty URL, in order: one
    error per malformed header; the warning about the scheme, exactly
    when the URL starts with neither; the notice that names the URL
    probed; then what [check_introspection] logs. *)
Theorem run_log_order (w : World) (args : Namespace) (st : Frame) :
  ns_url args <> "" ->
  exists probe,
    logged (snd (run w args st)) =
    logged st ++
    map invalid_header_record (List.filter malformed (ns_header args)) ++
    (if has_scheme (ns_url args) then []
     else [mkLog WARNING
             "URL does not start with http:// or https://.  Assuming https://"]) ++
    [mkLog INFO ("Checking GraphQL introspection at: " +:+
                 (if has_scheme (ns_url args) then ns_url args
                  else "https://" +:+ ns_url args))] ++
    probe.
Proof.
  intros Hurl. rewrite run_steps by done.
  set (url := effective_url (ns_url args)).
  set (headers := header_map ∅ _).
  set (st2 := with_log _ _).
  assert (Hlog : exists probe,
             logged (snd (check_introspection w url headers (ns_post args) st2))
             = logged st2 ++ probe).
  { assert (Hc : forall o f, exists probe,
               logged (snd (conclude o f)) = logged f ++ probe).
    { intros o f. destruct (fst (conclude o f)) as [b|e] eqn:Hf.
      - destruct (conclude_closing_record o f b Hf) as (rec & -> & _).
        by eexists.
      - destruct o as [r|e0].
        + destruct (conclude_ok_raises r f e Hf) as [He Hj].
          destruct (error_status r) eqn:Hs.
          { destruct (conclude_error_status f r Hs) as (e1 & _ & ->).
            by eexists. }
          destruct (PyStr.contains "application/json" (content_type r)) eqn:Hct.
          * rewrite (conclude_unparsed _ _ e), He by done.
            exists []. by rewrite app_nil_r.
          * rewrite conclude_not_json by done. by eexists.
        + revert Hf. unfold conclude, try_except, lift, mbind, py_bind. simpl.
          destruct (is_Exception e0);
            [|intros _; exists []; by rewrite app_nil_r].
          unfold handlers.
          destruct (is_RequestException e0); [done|].
          destruct (is_JSONDecodeError e0); [|done].
          unfold read_response, mbind, py_bind.
          destruct (var_response f); [done|].
          intros _. exists []. by rewrite app_nil_r. }
    destruct (ns_post args).
    - rewrite check_forced. destruct (Hc (w (post_request url headers))
        (mkFrame (logged st2) (sent st2 ++ [post_request url headers])
           (printed st2) None)) as [probe ->]. by exists probe.
    - destruct (w (post_request url headers)) as [r0|e] eqn:Hp.
      + destruct (is_html r0) eqn:Hh.
        * rewrite (check_fallback _ _ _ _ r0) by done.
          match goal with |- context [conclude ?o ?f] =>
            destruct (Hc o f) as [probe ->] end.
          exists (html_notice :: probe). simpl. by rewrite <- app_assoc.
        * rewrite (check_direct _ _ _ _ r0) by done.
          match goal with |- context [conclude ?o ?f] =>
            destruct (Hc o f) as [probe ->] end.
          by exists probe.
      + rewrite (check_post_failed _ _ _ _ e) by done.
        match goal with |- context [conclude ?o ?f] =>
          destruct (Hc o f) as [probe ->] end.
        by exists probe. }
  destruct Hlog as [probe Hlog]. exists probe.
  assert (Hst2 : logged st2 =
            logged st ++
            map invalid_header_record (List.filter malformed (ns_header args)) ++
            url_records (ns_url args)).
  { subst st2. unfold with_log. simpl. done. }
  assert (Hshape : forall later,
            (logged st ++
             map invalid_header_record (List.filter malformed (ns_header args)) ++
             url_records (ns_url args)) ++ later =
            logged st ++
            map invalid_header_record (List.filter malformed (ns_header args)) ++
            (if has_scheme (ns_url args) then []
             else [mkLog WARNING
                     "URL does not start with http:// or https://.  Assuming https://"]) ++
            [mkLog INFO ("Checking GraphQL introspection at: " +:+
                         (if has_scheme (ns_url args) then ns_url args
                          else "https://" +:+ ns_url args))] ++
            later).
  { intros later. unfold url_records, effective_url.
    destruct (has_scheme (ns_url args)); simpl; by rewrite <- !app_assoc. }
  rewrite <- Hshape, <- Hst2, <- Hlog.
  by destruct (check_introspection _ _ _ _ _) as [[b|e] st5].
Qed.

Lemma run_log_order_witness :
  exists probe,
    logged (snd (run (answering schema_answer) cli_without_scheme start)) =
    logged start ++
    map invalid_header_record
      (List.filter malformed (ns_header cli_without_scheme)) ++
    (if has_scheme (ns_url cli_without_scheme) then []
     else [mkLog WARNING
             "URL does not start with http:// or https://.  Assuming https://"]) ++
    [mkLog INFO ("Checking GraphQL introspection at: " +:+
                 (if has_scheme (ns_url cli_without_scheme)
                  then ns_url cli_without_scheme
                  else "https://" +:+ ns_url cli_without_scheme))] ++
    probe.
Proof.
  apply (run_log_order (answering schema_answer) cli_without_scheme start).
  discriminate.
Defined.

(** X18: the scheme is added once, and adding it by hand changes nothing
    but the log.  For a non-empty URL that starts with neither scheme,
    lines 190-209 end the same way, send the same requests and print the
    same on the URL as given and on [https://] followed by it. *)
Theorem run_with_scheme_typed (w : World) (args : Namespace) (st : Frame) :
  ns_url args <> "" ->
  has_scheme (ns_url args) = false ->
  let typed := with_url args ("https://" +:+ ns_url args) in
  fst (run w typed st) = fst (run w args st)
  /\ sent (snd (run w typed st)) = sent (snd (run w args st))
  /\ printed (snd (run w typed st)) = printed (snd (run w args st)).
Proof.
  intros Hurl Hs typed.
  assert (Htyped : ns_url typed <> "") by done.
  rewrite (run_steps w typed st Htyped), (run_steps w args st Hurl).
  assert (Heff : effective_url (ns_url typed) = effective_url (ns_url args)).
  { subst typed. simpl. rewrite <- (effective_url_without_scheme _ Hs).
    apply effective_url_once. }
  rewrite Heff. subst typed. simpl.
  set (url := effective_url (ns_url args)).
  set (headers := header_map ∅ _).
  set (st1 := with_log _ _). set (st2 := with_log _ _).
  pose proof (check_frame_irrelevant w url headers (ns_post args) st1 st2) as Hf.
  pose proof (requests_of_a_run w url headers (ns_post args) st1) as Hs1.
  pose proof (requests_of_a_run w url headers (ns_post args) st2) as Hs2.
  destruct (check_introspection_effects w url headers (ns_post args) st1)
    as [Hp1 _].
  destruct (check_introspection_effects w url headers (ns_post args) st2)
    as [Hp2 _].
  destruct (check_introspection w url headers (ns_post args) st1)
    as [[b1|e1] s1];
  destruct (check_introspection w url headers (ns_post args) st2)
    as [[b2|e2] s2]; simpl in *; try discriminate.
  - injection Hf as ->. rewrite Hs1, Hs2, Hp1, Hp2. done.
  - injection Hf as ->. rewrite Hs1, Hs2, Hp1, Hp2. done.
Qed.

Lemma run_with_scheme_typed_witness :
  sent (snd (run (answering schema_answer)
               (with_url cli_without_scheme
                  ("https://" +:+ ns_url cli_without_scheme)) start))
  = sent (snd (run (answering schema_answer) cli_without_scheme start)).
Proof.
  apply (run_with_scheme_typed (answering schema_answer) cli_without_scheme
           start).
  - discriminate.
  - reflexivity.
Defined.
